(** * A signing reverse proxy for the Bybit REST API: model and properties

    The repository holds four revisions of one Express server (server.js):

    - [Unified]     (the revision with [mustAuth], [pickEnv] and the single
                    wildcard route under /bybit): proxy token, environment
                    selection, strict credentials, signing and forwarding;
    - [Permissive]  (wildcard routes under /mainnet and /testnet, optional
                    credentials): requests are forwarded unsigned when keys
                    are missing;
    - [Passthrough] (src/server.js, [proxyToBybit]): no signing, the client's
                    pre-signed headers are relayed.

    The fourth revision (two routes, strict credentials) has the text of
    [signBybit] and [forwardToBybit] of [Unified] and the route handlers of
    [Permissive]; it is not modelled apart.

    JavaScript strings are modelled as [string]: each [ascii] is one code
    unit in 0..255, which is what Node delivers for request targets and
    header values (latin1).  The platform pieces the server calls (String
    methods, JSON.stringify, crypto's Hmac, fetch) are modelled in the
    modules [JS], [Json] and [Crypto]; everything under [Unified],
    [Permissive] and [Passthrough] follows the server source line by line. *)

From Stdlib Require Import ZArith NArith List String Ascii Lia DecimalString DecimalPos.
From stdpp Require Import base option strings gmap.
Import ListNotations.

Set Warnings "-register-all".

Local Open Scope list_scope.
Local Open Scope string_scope.

(** ** JavaScript string primitives *)

Module JS.

Definition code (c : ascii) : N := N_of_ascii c.

(** WhiteSpace and LineTerminator code units below 256, as stripped by
    String.prototype.trim: TAB, LF, VT, FF, CR, SP and NBSP. *)
Definition isWhiteSpace (c : ascii) : bool :=
  let n := code c in
  ((9 <=? n) && (n <=? 13) || (n =? 32) || (n =? 160))%N.

Fixpoint trimStart (s : string) : string :=
  match s with
  | String c s' => if isWhiteSpace c then trimStart s' else s
  | EmptyString => EmptyString
  end.

Fixpoint trimEnd (s : string) : string :=
  match s with
  | String c s' =>
      match trimEnd s' with
      | EmptyString => if isWhiteSpace c then EmptyString else String c EmptyString
      | r => String c r
      end
  | EmptyString => EmptyString
  end.

Definition trim (s : string) : string := trimEnd (trimStart s).

(** Lower-casing on code units below 256: A-Z and the Latin-1 capitals
    0xC0-0xDE (without the multiplication sign 0xD7) move up by 32. *)
Definition lowerChar (c : ascii) : ascii :=
  let n := code c in
  if ((65 <=? n) && (n <=? 90) || (192 <=? n) && (n <=? 222) && negb (n =? 215))%N
  then ascii_of_N (n + 32) else c.

Fixpoint toLowerCase (s : string) : string :=
  match s with
  | String c s' => String (lowerChar c) (toLowerCase s')
  | EmptyString => EmptyString
  end.

(** Upper-casing, used on request methods only: HTTP method tokens are
    ASCII, where toUpperCase maps a-z and nothing else. *)
Definition upperChar (c : ascii) : ascii :=
  let n := code c in
  if ((97 <=? n) && (n <=? 122))%N then ascii_of_N (n - 32) else c.

Fixpoint toUpperCase (s : string) : string :=
  match s with
  | String c s' => String (upperChar c) (toUpperCase s')
  | EmptyString => EmptyString
  end.

(** [s.startsWith(p)], returning what follows the prefix. *)
Fixpoint afterPrefix (p s : string) : option string :=
  match p, s with
  | EmptyString, _ => Some s
  | String a p', String b s' => if Ascii.eqb a b then afterPrefix p' s' else None
  | String _ _, EmptyString => None
  end.

Definition startsWith (s p : string) : bool :=
  match afterPrefix p s with Some _ => true | None => false end.

(** [s.replace(/^lit/, repl)] for a regular expression that is an anchored
    literal: the literal is replaced when [s] starts with it, and [s] is
    returned unchanged otherwise. *)
Definition replaceAnchored (lit repl s : string) : string :=
  match afterPrefix lit s with
  | Some rest => repl ++ rest
  | None => s
  end.

(** [s.split(sep)] for a one-character separator: every occurrence of the
    separator cuts; the result has one more element than there are
    separators, so it is never empty. *)
Fixpoint split (sep : ascii) (s : string) : list string :=
  match s with
  | EmptyString => [EmptyString]
  | String c s' =>
      if Ascii.eqb c sep then EmptyString :: split sep s'
      else match split sep s' with
           | h :: t => String c h :: t
           | [] => [String c EmptyString]
           end
  end.

(** Truthiness of a string, and [a || b] on possibly undefined strings. *)
Definition truthy (s : string) : bool :=
  match s with EmptyString => false | _ => true end.

Definition or (a : option string) (b : string) : string :=
  match a with
  | Some s => if truthy s then s else b
  | None => b
  end.

(** [a || b] where both may be undefined, and the truthiness of such a
    value. *)
Definition orElse (a b : option string) : option string :=
  match a with
  | Some s => if truthy s then a else b
  | None => b
  end.

Definition truthyOpt (a : option string) : bool :=
  match a with Some s => truthy s | None => false end.

(** A value interpolated in a template literal. *)
Definition interpolate (v : option string) : string :=
  match v with Some s => s | None => "undefined" end.

(** [n.toString()] for a non-negative integer. *)
Definition numberToString (n : N) : string :=
  NilEmpty.string_of_uint (N.to_uint n).

End JS.

(** ** Node's crypto module: HMAC-SHA256

    crypto is a platform module, not part of the repository.  It is modelled
    by the algorithms it implements: SHA-256 (FIPS 180-4) on 32-bit words
    held in [Z] with the wrap-around written out, and HMAC (RFC 2104). *)

Module Crypto.

Local Open Scope Z_scope.
Local Open Scope list_scope.

Definition mask32 : Z := 0xFFFFFFFF.
Definition wrap (x : Z) : Z := Z.land x mask32.
Definition add32 (x y : Z) : Z := wrap (x + y).

Definition shr (n x : Z) : Z := Z.shiftr x n.
Definition rotr (n x : Z) : Z :=
  Z.lor (Z.shiftr x n) (wrap (Z.shiftl x (32 - n))).

Definition Ch (x y z : Z) : Z :=
  Z.lxor (Z.land x y) (Z.land (Z.lxor x mask32) z).
Definition Maj (x y z : Z) : Z :=
  Z.lxor (Z.lxor (Z.land x y) (Z.land x z)) (Z.land y z).
Definition bigSigma0 (x : Z) : Z :=
  Z.lxor (Z.lxor (rotr 2 x) (rotr 13 x)) (rotr 22 x).
Definition bigSigma1 (x : Z) : Z :=
  Z.lxor (Z.lxor (rotr 6 x) (rotr 11 x)) (rotr 25 x).
Definition smallSigma0 (x : Z) : Z :=
  Z.lxor (Z.lxor (rotr 7 x) (rotr 18 x)) (shr 3 x).
Definition smallSigma1 (x : Z) : Z :=
  Z.lxor (Z.lxor (rotr 17 x) (rotr 19 x)) (shr 10 x).

(** The round constants, eight per row. *)
Definition roundConstants : list Z :=
     [0x428A2F98; 0x71374491; 0xB5C0FBCF; 0xE9B5DBA5] ++ [0x3956C25B; 0x59F111F1; 0x923F82A4; 0xAB1C5ED5]
  ++ [0xD807AA98; 0x12835B01; 0x243185BE; 0x550C7DC3] ++ [0x72BE5D74; 0x80DEB1FE; 0x9BDC06A7; 0xC19BF174]
  ++ [0xE49B69C1; 0xEFBE4786; 0x0FC19DC6; 0x240CA1CC] ++ [0x2DE92C6F; 0x4A7484AA; 0x5CB0A9DC; 0x76F988DA]
  ++ [0x983E5152; 0xA831C66D; 0xB00327C8; 0xBF597FC7] ++ [0xC6E00BF3; 0xD5A79147; 0x06CA6351; 0x14292967]
  ++ [0x27B70A85; 0x2E1B2138; 0x4D2C6DFC; 0x53380D13] ++ [0x650A7354; 0x766A0ABB; 0x81C2C92E; 0x92722C85]
  ++ [0xA2BFE8A1; 0xA81A664B; 0xC24B8B70; 0xC76C51A3] ++ [0xD192E819; 0xD6990624; 0xF40E3585; 0x106AA070]
  ++ [0x19A4C116; 0x1E376C08; 0x2748774C; 0x34B0BCB5] ++ [0x391C0CB3; 0x4ED8AA4A; 0x5B9CCA4F; 0x682E6FF3]
  ++ [0x748F82EE; 0x78A5636F; 0x84C87814; 0x8CC70208] ++ [0x90BEFFFA; 0xA4506CEB; 0xBEF9A3F7; 0xC67178F2].

(** The eight working variables a..h, which are also the chaining value. *)
Record hash := Hash { ha : Z; hb : Z; hc : Z; hd : Z; he : Z; hf : Z; hg : Z; hh : Z }.

Definition initialHash : hash :=
  Hash 0x6A09E667 0xBB67AE85 0x3C6EF372 0xA54FF53A
       0x510E527F 0x9B05688C 0x1F83D9AB 0x5BE0CD19.

(** Message schedule.  [recent] holds the words computed so far, the
    latest first, so W(t-2), W(t-7), W(t-15), W(t-16) sit at positions
    1, 6, 14 and 15. *)
Fixpoint extend (n : nat) (recent : list Z) : list Z :=
  match n with
  | O => recent
  | S n' =>
      let w := add32 (add32 (smallSigma1 (nth 1 recent 0)) (nth 6 recent 0))
                     (add32 (smallSigma0 (nth 14 recent 0)) (nth 15 recent 0)) in
      extend n' (w :: recent)
  end.

Definition schedule (block : list Z) : list Z :=
  rev (extend 48 (rev block)).

Definition round (s : hash) (kw : Z * Z) : hash :=
  let t1 := add32 (add32 (add32 (hh s) (bigSigma1 (he s))) (Ch (he s) (hf s) (hg s)))
                  (add32 (fst kw) (snd kw)) in
  let t2 := add32 (bigSigma0 (ha s)) (Maj (ha s) (hb s) (hc s)) in
  Hash (add32 t1 t2) (ha s) (hb s) (hc s) (add32 (hd s) t1) (he s) (hf s) (hg s).

Definition compress (h : hash) (block : list Z) : hash :=
  let s := fold_left round (combine roundConstants (schedule block)) h in
  Hash (add32 (ha h) (ha s)) (add32 (hb h) (hb s)) (add32 (hc h) (hc s))
       (add32 (hd h) (hd s)) (add32 (he h) (he s)) (add32 (hf h) (hf s))
       (add32 (hg h) (hg s)) (add32 (hh h) (hh s)).

(** Big-endian packing of bytes into words and back. *)
Definition wordOfBytes (bs : list Z) : Z :=
  fold_left (fun acc b => Z.lor (Z.shiftl acc 8) b) bs 0.

Definition bytesOfWord (w : Z) : list Z :=
  [Z.land (Z.shiftr w 24) 255; Z.land (Z.shiftr w 16) 255;
   Z.land (Z.shiftr w 8) 255; Z.land w 255].

Fixpoint chunks {A} (size count : nat) (l : list A) : list (list A) :=
  match count with
  | O => []
  | S k => firstn size l :: chunks size k (skipn size l)
  end.

(** Padding: a one bit, zeros up to 56 modulo 64, then the bit length as a
    64-bit big-endian integer. *)
Definition pad (msg : list Z) : list Z :=
  let len := Z.of_nat (length msg) in
  let zeros := Z.to_nat ((55 - len) mod 64) in
  let bits := 8 * len in
  msg ++ [128] ++ repeat 0 zeros
      ++ bytesOfWord (Z.shiftr bits 32) ++ bytesOfWord (wrap bits).

Definition blocksOf (bytes : list Z) : list (list Z) :=
  map (fun b => map wordOfBytes (chunks 4 16 b))
      (chunks 64 (length bytes / 64) bytes).

Definition sha256 (msg : list Z) : list Z :=
  let h := fold_left compress (blocksOf (pad msg)) initialHash in
  bytesOfWord (ha h) ++ bytesOfWord (hb h) ++ bytesOfWord (hc h) ++ bytesOfWord (hd h)
  ++ bytesOfWord (he h) ++ bytesOfWord (hf h) ++ bytesOfWord (hg h) ++ bytesOfWord (hh h).

(** HMAC with block size 64: a longer key is hashed, a shorter one is
    zero-filled; the inner and outer pads are 0x36 and 0x5c. *)
Definition blockKey (key : list Z) : list Z :=
  let k := if (64 <? length key)%nat then sha256 key else key in
  k ++ repeat 0 (64 - length k)%nat.

Definition hmacSha256 (key msg : list Z) : list Z :=
  let k := blockKey key in
  sha256 (map (Z.lxor 0x5C) k ++ sha256 (map (Z.lxor 0x36) k ++ msg)).

(** UTF-8 encoding of a string of code units below 256: one byte below
    128, two bytes from there on. *)
Definition utf8Char (c : ascii) : list Z :=
  let n := Z.of_N (N_of_ascii c) in
  if n <? 128 then [n]
  else [Z.lor 0xC0 (Z.shiftr n 6); Z.lor 0x80 (Z.land n 63)].

Fixpoint utf8 (s : string) : list Z :=
  match s with
  | String c s' => utf8Char c ++ utf8 s'
  | EmptyString => []
  end.

(** The "hex" encoding of Buffer: two digits per byte from the lower-case
    alphabet. *)
Definition hexDigit (n : Z) : ascii :=
  match String.get (Z.to_nat n) "0123456789abcdef" with
  | Some c => c
  | None => "0"%char
  end.

Fixpoint hex (bytes : list Z) : string :=
  match bytes with
  | b :: bs => String (hexDigit (Z.shiftr b 4)) (String (hexDigit (Z.land b 15)) (hex bs))
  | [] => EmptyString
  end.

(** The Hmac object: [createHmac("sha256", key)] keeps the key,
    [update] appends data, [digest("hex")] finishes. *)
Record Hmac := { hmacKey : list Z; hmacData : list Z }.

Definition createHmac (key : string) : Hmac :=
  {| hmacKey := utf8 key; hmacData := [] |}.

Definition update (h : Hmac) (data : string) : Hmac :=
  {| hmacKey := hmacKey h; hmacData := hmacData h ++ utf8 data |}.

Definition digest (h : Hmac) : string :=
  hex (hmacSha256 (hmacKey h) (hmacData h)).

End Crypto.

(** ** JSON values and JSON.stringify

    The values express.json and express.text leave in [req.body] and the
    query parser leaves in [req.query]: null, booleans, integer numbers
    (below 10^21 in magnitude, which JavaScript prints digit by digit),
    strings, arrays and objects (properties in the object's own order). *)

Module Json.

Inductive value :=
| JNull
| JBool (b : bool)
| JNum (n : Z)
| JStr (s : string)
| JArr (items : list value)
| JObj (props : list (string * value)).

(** [typeof v === "object"] *)
Definition typeofObject (v : value) : bool :=
  match v with
  | JNull | JArr _ | JObj _ => true
  | _ => false
  end.

Definition truthy (v : value) : bool :=
  match v with
  | JNull => false
  | JBool b => b
  | JNum n => negb (n =? 0)%Z
  | JStr s => JS.truthy s
  | JArr _ | JObj _ => true
  end.

Definition numberToString (n : Z) : string :=
  match n with
  | Zneg p => "-" ++ JS.numberToString (Npos p)
  | _ => JS.numberToString (Z.to_N n)
  end.

Fixpoint join (sep : string) (l : list string) : string :=
  match l with
  | [] => ""
  | [x] => x
  | x :: rest => x ++ sep ++ join sep rest
  end.

Definition doubleQuote : ascii := "034"%char.

(** QuoteJSONString: the quote, the backslash and the control characters
    are escaped, every other code unit is copied. *)
Definition escapeChar (c : ascii) : string :=
  let n := JS.code c in
  if (n =? 34)%N then String "\" (String doubleQuote "") else
  if (n =? 92)%N then "\\" else
  if (n =? 8)%N then "\b" else
  if (n =? 9)%N then "\t" else
  if (n =? 10)%N then "\n" else
  if (n =? 12)%N then "\f" else
  if (n =? 13)%N then "\r" else
  if (n <? 32)%N then "\u00" ++ Crypto.hex [Z.of_N n]
  else String c "".

Fixpoint escape (s : string) : string :=
  match s with
  | String c s' => escapeChar c ++ escape s'
  | EmptyString => ""
  end.

Definition quote (s : string) : string :=
  String doubleQuote (escape s ++ String doubleQuote "").

Fixpoint stringify (v : value) : string :=
  match v with
  | JNull => "null"
  | JBool true => "true"
  | JBool false => "false"
  | JNum n => numberToString n
  | JStr s => quote s
  | JArr items => "[" ++ join "," (map stringify items) ++ "]"
  | JObj props =>
      "{" ++ join "," (map (fun kv => let '(k, x) := kv in quote k ++ ":" ++ stringify x) props) ++ "}"
  end.

(** [v.toString()] on a truthy value; inside an array, null joins as the
    empty string. *)
Fixpoint toString (v : value) : string :=
  match v with
  | JNull => ""
  | JBool true => "true"
  | JBool false => "false"
  | JNum n => numberToString n
  | JStr s => s
  | JArr items => join "," (map toString items)
  | JObj _ => "[object Object]"
  end.

End Json.

(** ** Requests, responses and outbound calls *)

Module Http.

(** The fields of Express's [req] the server reads.  [headers] is keyed by
    lower-cased names, as Node stores them; [query] is the parsed query
    string; [body] is what the body parsers left ([None] is undefined). *)
Record Request := {
  originalUrl : string;
  method : string;
  headers : gmap string string;
  query : gmap string Json.value;
  body : option Json.value
}.

(** [req.header(name)], also [req.get(name)] *)
Definition header (req : Request) (name : string) : option string :=
  headers req !! JS.toLowerCase name.

Record Response := {
  status : Z;
  contentType : string;
  content : string
}.

(** [res.status(code).json(obj)] *)
Definition json (code : Z) (obj : Json.value) : Response :=
  {| status := code; contentType := "application/json"; content := Json.stringify obj |}.

(** [res.status(code).set("Content-Type", ct).send(text)] *)
Definition send (code : Z) (ct text : string) : Response :=
  {| status := code; contentType := ct; content := text |}.

(** The object [{ error: msg }] *)
Definition errorObject (msg : string) : Json.value :=
  Json.JObj [("error", Json.JStr msg)].

Record Error := { name : string; message : string }.

(** [new Error(msg)] *)
Definition newError (msg : string) : Error := {| name := "Error"; message := msg |}.

(** [String(e)], which is Error.prototype.toString *)
Definition errorToString (e : Error) : string :=
  if negb (JS.truthy (name e)) then message e
  else if negb (JS.truthy (message e)) then name e
  else name e ++ ": " ++ message e.

(** [e?.message || String(e)] *)
Definition errorText (e : Error) : string :=
  JS.or (Some (message e)) (errorToString e).

(** One call [fetch(url, opts)]: [opts] has a method and headers, and a
    body only when the caller set one. *)
Record FetchCall := {
  url : string;
  optsMethod : string;
  optsHeaders : gmap string string;
  optsBody : option string
}.

(** What the server reads of the upstream response: [r.status] and
    [await r.text()]. *)
Record Fetched := { upstreamStatus : Z; text : string }.

(** A computation returns or throws, and leaves the fetch calls it made. *)
Inductive outcome (A : Type) :=
| Return (a : A)
| Throw (e : Error).
Arguments Return {A} a.
Arguments Throw {A} e.

Definition io (A : Type) : Type := outcome A * list FetchCall.

Definition ret {A} (a : A) : io A := (Return a, []).

Definition lift {A} (o : outcome A) : io A := (o, []).

Definition bind {A B} (m : io A) (k : A -> io B) : io B :=
  match m with
  | (Return a, calls) => let '(r, calls') := k a in (r, (calls ++ calls')%list)
  | (Throw e, calls) => (Throw e, calls)
  end.

(** The upstream answers a call or the call fails. *)
Definition fetch (upstream : FetchCall -> outcome Fetched) (call : FetchCall) : io Fetched :=
  (upstream call, [call]).

(** The relayed content type: [text.trim().startsWith("{")] *)
Definition inferContentType (text : string) : string :=
  if JS.startsWith (JS.trim text) "{" then "application/json" else "text/html".

End Http.

Notation "'let*' x ':=' m 'in' k" := (Http.bind m (fun x => k))
  (at level 10, x name, m at level 100, k at level 200).

(** ** The unified signing proxy (mustAuth, pickEnv, route /bybit) *)

Module Unified.

Import Http.

Record Creds := { baseUrl : string; credsApiKey : string; credsSecret : string }.

Record SignInput := {
  timestamp : string;
  apiKey : string;
  secret : string;
  recvWindow : string;
  payload : string
}.

(** The argument object of [forwardToBybit]. *)
Record ForwardArgs := {
  argMethod : string;
  argUrl : string;
  argApiKey : string;
  argSecret : string;
  argPayload : string;
  argBodyJson : string
}.

Definition signBybit (i : SignInput) : string :=
  let signStr := timestamp i ++ apiKey i ++ recvWindow i ++ payload i in
  Crypto.digest (Crypto.update (Crypto.createHmac (secret i)) signStr).

(** The local constants [h] and [q] of [pickEnv]. *)
Definition envHeader (req : Request) : string :=
  JS.toLowerCase (JS.trim (JS.or (header req "X-BYBIT-ENV") "")).

Definition envQuery (req : Request) : string :=
  let v := match query req !! "env" with
           | Some v => if Json.truthy v then v else Json.JStr ""
           | None => Json.JStr ""
           end in
  JS.toLowerCase (JS.trim (Json.toString v)).

Definition invalidEnv (env : string) : Error :=
  newError ("Invalid env " ++ String Json.doubleQuote env
            ++ String Json.doubleQuote ". Use demo|main.").

(** The local constant [env] of [pickEnv]: [h || q || "demo"]. *)
Definition resolvedEnv (req : Request) : string :=
  let h := envHeader req in
  let q := envQuery req in
  JS.or (Some (JS.or (Some h) q)) "demo".

Definition pickEnv (req : Request) : outcome string :=
  let env := resolvedEnv req in
  if negb (String.eqb env "demo") && negb (String.eqb env "main")
  then Throw (invalidEnv env)
  else Return env.

Section Server.

(** [process.env], read once at start-up; [Date.now()]; the upstream. *)
Variable processEnv : gmap string string.
Variable now : N.
Variable upstream : FetchCall -> outcome Fetched.

Definition PROXY_TOKEN : string := JS.trim (JS.or (processEnv !! "PROXY_TOKEN") "").

Definition BYBIT_MAINNET : string := "https://api.bybit.com".
Definition BYBIT_DEMO : string := "https://api-demo-testnet.bybit.com".

Definition MAIN_KEY : string := JS.trim (JS.or (processEnv !! "BYBIT_MAINNET_API_KEY") "").
Definition MAIN_SECRET : string := JS.trim (JS.or (processEnv !! "BYBIT_MAINNET_SECRET") "").
Definition DEMO_KEY : string := JS.trim (JS.or (processEnv !! "BYBIT_DEMO_API_KEY") "").
Definition DEMO_SECRET : string := JS.trim (JS.or (processEnv !! "BYBIT_DEMO_SECRET") "").

Definition RECV_WINDOW : string := JS.trim (JS.or (processEnv !! "BYBIT_RECV_WINDOW") "5000").

(** The local constant [presented] of [mustAuth]. *)
Definition presented (req : Request) : string :=
  JS.trim (JS.or (header req "X-PROXY-TOKEN") "").

(** [mustAuth] answers the request itself when it refuses it, and
    returns null to let it through. *)
Definition mustAuth (req : Request) : option Response :=
  if negb (JS.truthy PROXY_TOKEN) then Some (json 500 (errorObject "PROXY_TOKEN not set"))
  else if negb (String.eqb (presented req) PROXY_TOKEN)
       then Some (json 401 (errorObject "Unauthorized"))
       else None.

Definition credsFor (env : string) : outcome Creds :=
  if String.eqb env "main" then
    if negb (JS.truthy MAIN_KEY) || negb (JS.truthy MAIN_SECRET)
    then Throw (newError "Mainnet keys missing in env")
    else Return {| baseUrl := BYBIT_MAINNET; credsApiKey := MAIN_KEY; credsSecret := MAIN_SECRET |}
  else
    if negb (JS.truthy DEMO_KEY) || negb (JS.truthy DEMO_SECRET)
    then Throw (newError "Demo keys missing in env")
    else Return {| baseUrl := BYBIT_DEMO; credsApiKey := DEMO_KEY; credsSecret := DEMO_SECRET |}.

(** [forwardToBybit] up to its [fetch]: the time stamp, the signature,
    the headers and the options of the call. *)
Definition outboundCall (a : ForwardArgs) : FetchCall :=
  let timestamp := JS.numberToString now in
  let signature := signBybit {| timestamp := timestamp; apiKey := argApiKey a;
                                secret := argSecret a; recvWindow := RECV_WINDOW;
                                payload := argPayload a |} in
  let headers : gmap string string :=
    <["Content-Type" := "application/json"]>
    (<["X-BAPI-RECV-WINDOW" := RECV_WINDOW]>
    (<["X-BAPI-SIGN" := signature]>
    (<["X-BAPI-TIMESTAMP" := timestamp]>
    (<["X-BAPI-API-KEY" := argApiKey a]> ∅)))) in
  {| url := argUrl a; optsMethod := argMethod a; optsHeaders := headers;
     optsBody := if negb (String.eqb (argMethod a) "GET")
                 then Some (argBodyJson a) else None |}.

Definition forwardToBybit (a : ForwardArgs) : io Fetched :=
  fetch upstream (outboundCall a).

(** Lines 105-122 of the handler: the target URL, the method and the
    payload rules, gathered in the object passed to [forwardToBybit]. *)
Definition forwardArgs (creds : Creds) (req : Request) : ForwardArgs :=
  let path := JS.replaceAnchored "/bybit" "" (originalUrl req) in
  let parts := JS.split "?" path in
  let pathname := parts !! 0%nat in
  let qs := default "" (parts !! 1%nat) in
  let url := baseUrl creds ++ JS.interpolate pathname
             ++ (if JS.truthy qs then "?" ++ qs else "") in
  let method := JS.toUpperCase (method req) in
  let '(payload, bodyJson) :=
    if String.eqb method "GET" then (JS.or (Some qs) "", "")
    else
      let bodyJson := Json.stringify (match body req with
                                      | None | Some Json.JNull => Json.JObj []
                                      | Some v => v
                                      end) in
      (bodyJson, bodyJson) in
  {| argMethod := method; argUrl := url; argApiKey := credsApiKey creds;
     argSecret := credsSecret creds; argPayload := payload; argBodyJson := bodyJson |}.

(** The handler of the route: the response and the fetch calls made. *)
Definition handler (req : Request) : Response * list FetchCall :=
  match mustAuth req with
  | Some refused => (refused, [])
  | None =>
      let attempt : io Response :=
        let* env := lift (pickEnv req) in
        let* creds := lift (credsFor env) in
        let* out := forwardToBybit (forwardArgs creds req) in
        ret (send (upstreamStatus out) (inferContentType (text out)) (text out)) in
      match attempt with
      | (Return res, calls) => (res, calls)
      | (Throw e, calls) => (json 500 (errorObject (errorText e)), calls)
      end
  end.

End Server.

End Unified.

(** ** The two-route signing proxy with optional credentials
    (routes /mainnet and /testnet, keys may be missing) *)

Module Permissive.

Import Http.

Record Creds := {
  baseUrl : string;
  credsApiKey : option string;
  credsSecret : option string
}.

Record ForwardArgs := {
  argMethod : string;
  argUrl : string;
  argApiKey : option string;
  argSecret : option string;
  argPayload : string;
  argBodyJson : string
}.

(** [signBybit] has the same text in every signing revision; its argument
    is the record of [Unified]. *)
Definition signBybit (i : Unified.SignInput) : string :=
  let signStr := Unified.timestamp i ++ Unified.apiKey i
                 ++ Unified.recvWindow i ++ Unified.payload i in
  Crypto.digest (Crypto.update (Crypto.createHmac (Unified.secret i)) signStr).

(** [s || null] *)
Definition orNull (s : string) : option string :=
  if JS.truthy s then Some s else None.

(** No proxy token: always allow. *)
Definition mustAuth (req : Request) : option Response := None.

Section Server.

Variable processEnv : gmap string string.
Variable now : N.
Variable upstream : FetchCall -> outcome Fetched.

Definition BYBIT_MAINNET : string := "https://api.bybit.com".
Definition BYBIT_TESTNET : string := "https://api-demo.bybit.com".

Definition MAIN_KEY : string := JS.trim (JS.or (processEnv !! "BYBIT_MAINNET_API_KEY") "").
Definition MAIN_SECRET : string := JS.trim (JS.or (processEnv !! "BYBIT_MAINNET_SECRET") "").
Definition TESTNET_KEY : string := JS.trim (JS.or (processEnv !! "BYBIT_DEMO_API_KEY") "").
Definition TESTNET_SECRET : string := JS.trim (JS.or (processEnv !! "BYBIT_DEMO_SECRET") "").

Definition RECV_WINDOW : string := JS.trim (JS.or (processEnv !! "BYBIT_RECV_WINDOW") "5000").

(** Keys are not required: a missing one is null. *)
Definition credsFor (env : string) : Creds :=
  if String.eqb env "mainnet"
  then {| baseUrl := BYBIT_MAINNET; credsApiKey := orNull MAIN_KEY;
          credsSecret := orNull MAIN_SECRET |}
  else {| baseUrl := BYBIT_TESTNET; credsApiKey := orNull TESTNET_KEY;
          credsSecret := orNull TESTNET_SECRET |}.

(** [forwardToBybit] up to its [fetch].  Without a key or a secret the
    call goes out with no auth headers. *)
Definition outboundCall (a : ForwardArgs) : FetchCall :=
  let headers : gmap string string := <["Content-Type" := "application/json"]> ∅ in
  let headers :=
    match argApiKey a, argSecret a with
    | Some apiKey, Some secret =>
        if JS.truthy apiKey && JS.truthy secret then
          let timestamp := JS.numberToString now in
          let signature :=
            signBybit {| Unified.timestamp := timestamp; Unified.apiKey := apiKey;
                         Unified.secret := secret; Unified.recvWindow := RECV_WINDOW;
                         Unified.payload := argPayload a |} in
          <["X-BAPI-RECV-WINDOW" := RECV_WINDOW]>
          (<["X-BAPI-SIGN" := signature]>
          (<["X-BAPI-TIMESTAMP" := timestamp]>
          (<["X-BAPI-API-KEY" := apiKey]> headers)))
        else headers
    | _, _ => headers
    end in
  {| url := argUrl a; optsMethod := argMethod a; optsHeaders := headers;
     optsBody := if negb (String.eqb (argMethod a) "GET")
                 then Some (argBodyJson a) else None |}.

Definition forwardToBybit (a : ForwardArgs) : io Fetched :=
  fetch upstream (outboundCall a).

(** The two route handlers have the same body, with the route prefix and
    the environment name as their only difference. *)
Definition forwardArgs (prefix : string) (creds : Creds) (req : Request) : ForwardArgs :=
  let path := JS.replaceAnchored prefix "" (originalUrl req) in
  let parts := JS.split "?" path in
  let pathname := parts !! 0%nat in
  let qs := default "" (parts !! 1%nat) in
  let url := baseUrl creds ++ JS.interpolate pathname
             ++ (if JS.truthy qs then "?" ++ qs else "") in
  let method := JS.toUpperCase (method req) in
  let '(payload, bodyJson) :=
    if String.eqb method "GET" then (JS.or (Some qs) "", "")
    else
      let bodyJson := Json.stringify (match body req with
                                      | None | Some Json.JNull => Json.JObj []
                                      | Some v => v
                                      end) in
      (bodyJson, bodyJson) in
  {| argMethod := method; argUrl := url; argApiKey := credsApiKey creds;
     argSecret := credsSecret creds; argPayload := payload; argBodyJson := bodyJson |}.

Definition routeHandler (prefix env : string) (req : Request) : Response * list FetchCall :=
  match mustAuth req with
  | Some refused => (refused, [])
  | None =>
      let attempt : io Response :=
        let creds := credsFor env in
        let* out := forwardToBybit (forwardArgs prefix creds req) in
        ret (send (upstreamStatus out) (inferContentType (text out)) (text out)) in
      match attempt with
      | (Return res, calls) => (res, calls)
      | (Throw e, calls) => (json 500 (errorObject (errorText e)), calls)
      end
  end.

Definition mainnetHandler : Request -> Response * list FetchCall :=
  routeHandler "/mainnet" "mainnet".

Definition testnetHandler : Request -> Response * list FetchCall :=
  routeHandler "/testnet" "testnet".

End Server.

End Permissive.

(** ** The pass-through proxy (src/server.js, proxyToBybit) *)

Module Passthrough.

Import Http.

Definition BYBIT_MAINNET : string := "https://api.bybit.com".
Definition BYBIT_TESTNET : string := "https://api-demo-testnet.bybit.com".

Definition headersToCopy : list string :=
  ["x-bapi-api-key"; "x-bapi-timestamp"; "x-bapi-sign"; "x-bapi-recv-window";
   "content-type"; "accept"; "accept-language"; "cache-control"].

Definition userAgent : string :=
  "Mozilla/5.0 (Windows NT 10.0; Win64; x64) AppleWebKit/537.36 (KHTML, like Gecko) Chrome/120.0.0.0 Safari/537.36".

(** One turn of the loop over [headersToCopy]. *)
Definition copyHeader (req : Request) (headers : gmap string string) (h : string)
  : gmap string string :=
  let value := JS.orElse (JS.orElse (Http.headers req !! h)
                                    (Http.headers req !! JS.toUpperCase h))
                         (header req h) in
  match value with
  | Some value =>
      if negb (JS.truthy value) then headers
      else if String.eqb h "x-bapi-api-key" then <["X-BAPI-API-KEY" := value]> headers
      else if String.eqb h "x-bapi-timestamp" then <["X-BAPI-TIMESTAMP" := value]> headers
      else if String.eqb h "x-bapi-sign" then <["X-BAPI-SIGN" := value]> headers
      else if String.eqb h "x-bapi-recv-window" then <["X-BAPI-RECV-WINDOW" := value]> headers
      else <[h := value]> headers
  | None => headers
  end.

(** The body rule: nothing for GET and HEAD; otherwise an object (null
    included, by typeof) is serialised, any other truthy value is passed
    on, and a falsy one (undefined, the empty text) sets no body. *)
Definition bodyFor (method : string) (b : option Json.value) : option string :=
  if negb (String.eqb method "GET") && negb (String.eqb method "HEAD") then
    match b with
    | Some v =>
        if Json.typeofObject v then Some (Json.stringify v)
        else if Json.truthy v then Some (Json.toString v)
        else None
    | None => None
    end
  else None.

(** [proxyToBybit] up to its [fetch]: the target URL, the copied headers
    and the options of the call. *)
Definition outboundCall (req : Request) (baseUrl prefix : string) : FetchCall :=
  let path := JS.replaceAnchored ("/" ++ prefix) "" (originalUrl req) in
  let url := baseUrl ++ path in
  let method := JS.toUpperCase (method req) in
  let headers := fold_left (copyHeader req) headersToCopy ∅ in
  let headers :=
    if negb (JS.truthyOpt (headers !! "content-type"))
       && negb (String.eqb method "GET")
    then <["Content-Type" := "application/json"]> headers else headers in
  let headers := <["User-Agent" := userAgent]> headers in
  {| url := url; optsMethod := method; optsHeaders := headers;
     optsBody := bodyFor method (body req) |}.

Section Server.

Variable upstream : FetchCall -> outcome Fetched.

Definition proxyToBybit (req : Request) (baseUrl prefix : string)
  : Response * list FetchCall :=
  let attempt : io Response :=
    let* response := fetch upstream (outboundCall req baseUrl prefix) in
    ret (send (upstreamStatus response) (inferContentType (text response))
              (text response)) in
  match attempt with
  | (Return res, calls) => (res, calls)
  | (Throw e, calls) => (json 500 (errorObject (errorText e)), calls)
  end.

Definition mainnetHandler (req : Request) := proxyToBybit req BYBIT_MAINNET "mainnet".
Definition testnetHandler (req : Request) := proxyToBybit req BYBIT_TESTNET "testnet".

End Server.

End Passthrough.

(** ** The specification's wording, for comparison with the code *)

Module Spec.

(** Canonical string: timestamp, apiKey, recvWindow and payload, in that
    order, with no separators. *)
Definition canonicalString (timestamp apiKey recvWindow payload : string) : string :=
  String.concat "" [timestamp; apiKey; recvWindow; payload].

(** Signature: HMAC-SHA256 of the canonical string keyed by the secret,
    hex-encoded. *)
Definition signature (timestamp apiKey recvWindow payload secret : string) : string :=
  Crypto.hex (Crypto.hmacSha256 (Crypto.utf8 secret)
                (Crypto.utf8 (canonicalString timestamp apiKey recvWindow payload))).

Definition isLowerHexDigit (c : ascii) : bool :=
  let n := JS.code c in
  ((48 <=? n) && (n <=? 57) || (97 <=? n) && (n <=? 102))%N.

(** The request target cut at its first question mark: the path, and the
    query string when there is one. *)
Fixpoint cutTarget (target : string) : string * option string :=
  match target with
  | EmptyString => (EmptyString, None)
  | String c rest =>
      if Ascii.eqb c "?" then (EmptyString, Some rest)
      else let '(p, q) := cutTarget rest in (String c p, q)
  end.

(** Payload of a GET: the query string without its leading question mark,
    empty when the request has no query string. *)
Definition getPayload (target : string) : string :=
  default "" (snd (cutTarget target)).

(** Outbound URL: the base URL, the path without the routing prefix, and
    the original query string reattached with one question mark. *)
Definition outboundUrl (baseUrl prefix target : string) : string :=
  let '(path, q) := cutTarget target in
  baseUrl ++ JS.replaceAnchored prefix "" path
  ++ match q with Some q => "?" ++ q | None => "" end.

End Spec.

(** ** Sample configuration, upstream and requests *)

Module Sample.

Import Http.

(** A process environment with the proxy token and both key pairs set. *)
Definition processEnv : gmap string string :=
  <["PROXY_TOKEN" := "s3cret"]>
  (<["BYBIT_MAINNET_API_KEY" := "K0"]> (<["BYBIT_MAINNET_SECRET" := "S0"]>
  (<["BYBIT_DEMO_API_KEY" := "K1"]> (<["BYBIT_DEMO_SECRET" := "S3"]> ∅)))).

(** The same without a proxy token. *)
Definition noTokenEnv : gmap string string := delete "PROXY_TOKEN" processEnv.

Definition now : N := 1700000000000.

(** An upstream that answers every call with 200 and a JSON text. *)
Definition upstream (call : FetchCall) : outcome Fetched :=
  Return {| upstreamStatus := 200; text := "{}" |}.

Definition request (method target : string) (headers : list (string * string))
           (body : option Json.value) : Request :=
  {| originalUrl := target; method := method; headers := list_to_map headers;
     query := ∅; body := body |}.

Definition token : string * string := ("x-proxy-token", "s3cret").

Definition nbsp : string := String "160"%char "".

(** Requests that present the token with surrounding white space: spaces,
    and a trailing no-break space (code unit 160). *)
Definition spacedTokenRequest : Request :=
  request "GET" "/bybit/v5/market/time" [("x-proxy-token", " s3cret ")] None.

Definition nbspTokenRequest : Request :=
  request "GET" "/bybit/v5/market/time" [("x-proxy-token", "s3cret" ++ nbsp)] None.

Definition wrongTokenRequest : Request :=
  request "GET" "/bybit/v5/market/time" [("x-proxy-token", "s3creT")] None.

(** An order on mainnet, and the same request without a body. *)
Definition postOrder : Request :=
  request "POST" "/bybit/v5/order/create" [token; ("x-bybit-env", "main")]
          (Some (Json.JObj [("symbol", Json.JStr "BTCUSDT")])).

Definition postNoBody : Request :=
  request "POST" "/bybit/v5/order/create" [token; ("x-bybit-env", "main")] None.

(** A GET whose query string contains a question mark of its own. *)
Definition getTickers : Request :=
  request "GET" "/bybit/v5/market/tickers?category=linear&cursor=a?b" [token] None.

(** An ordinary GET, with one question mark. *)
Definition getKline : Request :=
  request "GET" "/bybit/v5/market/kline?symbol=BTCUSDT&interval=1" [token] None.

Definition headTime : Request :=
  request "HEAD" "/bybit/v5/market/time" [token] None.

(** For the pass-through proxy: a POST whose text body is empty, and a
    pre-signed HEAD. *)
Definition postEmptyText : Request :=
  request "POST" "/mainnet/v5/order/create" [("content-type", "text/plain")]
          (Some (Json.JStr "")).

Definition headMainnet : Request :=
  request "HEAD" "/mainnet/v5/market/time" [] (Some (Json.JObj [])).

Definition demoCreds : Unified.Creds :=
  {| Unified.baseUrl := "https://api-demo-testnet.bybit.com";
     Unified.credsApiKey := "K1"; Unified.credsSecret := "S3" |}.

Definition mainCreds : Unified.Creds :=
  {| Unified.baseUrl := "https://api.bybit.com";
     Unified.credsApiKey := "K0"; Unified.credsSecret := "S0" |}.

(** The calls the unified handler makes for [postOrder] and [postNoBody]. *)
Definition postOrderCall : FetchCall :=
  Unified.outboundCall processEnv now (Unified.forwardArgs mainCreds postOrder).

Definition postNoBodyCall : FetchCall :=
  Unified.outboundCall processEnv now (Unified.forwardArgs mainCreds postNoBody).

(** Requests that select an environment: the target, the X-BYBIT-ENV header
    and the parsed env parameter of the target's query string. *)
Definition envRequest (target : string) (headerValue : option string)
           (queryValue : option Json.value) : Request :=
  {| originalUrl := target; method := "GET";
     headers := match headerValue with
                | Some v => <["x-bybit-env" := v]> (list_to_map [token])
                | None => list_to_map [token]
                end;
     query := match queryValue with
              | Some v => <["env" := v]> ∅
              | None => ∅
              end;
     body := None |}.




End Sample.

(** ** The two-route signing proxy with required credentials
    (routes /mainnet and /testnet, keys must be set) *)

Module Strict.

Import Http.

Definition signBybit (i : Unified.SignInput) : string :=
  let signStr := Unified.timestamp i ++ Unified.apiKey i
                 ++ Unified.recvWindow i ++ Unified.payload i in
  Crypto.digest (Crypto.update (Crypto.createHmac (Unified.secret i)) signStr).

(** No proxy token: always allow. *)
Definition mustAuth (req : Request) : option Response := None.

Section Server.

Variable processEnv : gmap string string.
Variable now : N.
Variable upstream : FetchCall -> outcome Fetched.

Definition BYBIT_MAINNET : string := "https://api.bybit.com".
Definition BYBIT_TESTNET : string := "https://api-demo.bybit.com".

Definition MAIN_KEY : string := JS.trim (JS.or (processEnv !! "BYBIT_MAINNET_API_KEY") "").
Definition MAIN_SECRET : string := JS.trim (JS.or (processEnv !! "BYBIT_MAINNET_SECRET") "").
Definition TESTNET_KEY : string := JS.trim (JS.or (processEnv !! "BYBIT_DEMO_API_KEY") "").
Definition TESTNET_SECRET : string := JS.trim (JS.or (processEnv !! "BYBIT_DEMO_SECRET") "").

Definition RECV_WINDOW : string := JS.trim (JS.or (processEnv !! "BYBIT_RECV_WINDOW") "5000").

Definition credsFor (env : string) : outcome Unified.Creds :=
  if String.eqb env "mainnet" then
    if negb (JS.truthy MAIN_KEY) || negb (JS.truthy MAIN_SECRET)
    then Throw (newError "Mainnet keys missing in env")
    else Return {| Unified.baseUrl := BYBIT_MAINNET; Unified.credsApiKey := MAIN_KEY;
                   Unified.credsSecret := MAIN_SECRET |}
  else
    if negb (JS.truthy TESTNET_KEY) || negb (JS.truthy TESTNET_SECRET)
    then Throw (newError "Testnet keys missing in env")
    else Return {| Unified.baseUrl := BYBIT_TESTNET; Unified.credsApiKey := TESTNET_KEY;
                   Unified.credsSecret := TESTNET_SECRET |}.

(** [forwardToBybit] up to its [fetch]. *)
Definition outboundCall (a : Unified.ForwardArgs) : FetchCall :=
  let timestamp := JS.numberToString now in
  let signature :=
    signBybit {| Unified.timestamp := timestamp; Unified.apiKey := Unified.argApiKey a;
                 Unified.secret := Unified.argSecret a; Unified.recvWindow := RECV_WINDOW;
                 Unified.payload := Unified.argPayload a |} in
  let headers : gmap string string :=
    <["Content-Type" := "application/json"]>
    (<["X-BAPI-RECV-WINDOW" := RECV_WINDOW]>
    (<["X-BAPI-SIGN" := signature]>
    (<["X-BAPI-TIMESTAMP" := timestamp]>
    (<["X-BAPI-API-KEY" := Unified.argApiKey a]> ∅)))) in
  {| url := Unified.argUrl a; optsMethod := Unified.argMethod a; optsHeaders := headers;
     optsBody := if negb (String.eqb (Unified.argMethod a) "GET")
                 then Some (Unified.argBodyJson a) else None |}.

Definition forwardToBybit (a : Unified.ForwardArgs) : io Fetched :=
  fetch upstream (outboundCall a).

(** The two route handlers have the same body, with the route prefix and
    the environment name as their only difference. *)
Definition forwardArgs (prefix : string) (creds : Unified.Creds) (req : Request)
  : Unified.ForwardArgs :=
  let path := JS.replaceAnchored prefix "" (originalUrl req) in
  let parts := JS.split "?" path in
  let pathname := parts !! 0%nat in
  let qs := default "" (parts !! 1%nat) in
  let url := Unified.baseUrl creds ++ JS.interpolate pathname
             ++ (if JS.truthy qs then "?" ++ qs else "") in
  let method := JS.toUpperCase (method req) in
  let '(payload, bodyJson) :=
    if String.eqb method "GET" then (JS.or (Some qs) "", "")
    else
      let bodyJson := Json.stringify (match body req with
                                      | None | Some Json.JNull => Json.JObj []
                                      | Some v => v
                                      end) in
      (bodyJson, bodyJson) in
  {| Unified.argMethod := method; Unified.argUrl := url;
     Unified.argApiKey := Unified.credsApiKey creds;
     Unified.argSecret := Unified.credsSecret creds;
     Unified.argPayload := payload; Unified.argBodyJson := bodyJson |}.

Definition routeHandler (prefix env : string) (req : Request) : Response * list FetchCall :=
  match mustAuth req with
  | Some refused => (refused, [])
  | None =>
      let attempt : io Response :=
        let* creds := lift (credsFor env) in
        let* out := forwardToBybit (forwardArgs prefix creds req) in
        ret (send (upstreamStatus out) (inferContentType (text out)) (text out)) in
      match attempt with
      | (Return res, calls) => (res, calls)
      | (Throw e, calls) => (json 500 (errorObject (errorText e)), calls)
      end
  end.

Definition mainnetHandler : Request -> Response * list FetchCall :=
  routeHandler "/mainnet" "mainnet".

Definition testnetHandler : Request -> Response * list FetchCall :=
  routeHandler "/testnet" "testnet".

End Server.

End Strict.

(** ** Vocabulary for the statements *)

Module Shape.

Import Http.

(** A string of white space only (the empty string included). *)
Fixpoint blank (s : string) : bool :=
  match s with
  | String c s' => JS.isWhiteSpace c && blank s'
  | EmptyString => true
  end.

Fixpoint contains (c : ascii) (s : string) : bool :=
  match s with
  | String d s' => Ascii.eqb c d || contains c s'
  | EmptyString => false
  end.

(** The name under which [proxyToBybit] sends a header it copies. *)
Definition outboundName (h : string) : string :=
  if String.eqb h "x-bapi-api-key" then "X-BAPI-API-KEY"
  else if String.eqb h "x-bapi-timestamp" then "X-BAPI-TIMESTAMP"
  else if String.eqb h "x-bapi-sign" then "X-BAPI-SIGN"
  else if String.eqb h "x-bapi-recv-window" then "X-BAPI-RECV-WINDOW"
  else h.

(** Every header name [proxyToBybit] can send. *)
Definition outboundNames : list string :=
  map outboundName Passthrough.headersToCopy ++ ["Content-Type"; "User-Agent"].

(** The value [proxyToBybit] reads for a header name:
    [req.headers[h] || req.headers[h.toUpperCase()] || req.get(h)]. *)
Definition inboundValue (req : Request) (h : string) : option string :=
  JS.orElse (JS.orElse (Http.headers req !! h) (Http.headers req !! JS.toUpperCase h))
            (header req h).

(** What the upstream sees as the signed payload of a call: the body when
    there is one, the query string of the URL otherwise. *)
Definition sentPayload (call : FetchCall) : string :=
  match optsBody call with
  | Some sent => sent
  | None => Spec.getPayload (url call)
  end.

(** The text an error leaves in the 500 response. *)
Definition errorMessage (e : Error) : string :=
  if JS.truthy (message e) then message e else name e.

End Shape.

(** ** More sample configurations and requests *)

Module Cases.

Import Http.

(** Only the mainnet key is set: the secret is missing. *)
Definition keyOnlyEnv : gmap string string :=
  <["PROXY_TOKEN" := "s3cret"]> (<["BYBIT_MAINNET_API_KEY" := "K0"]> ∅).

(** A proxy token of white space only, and a receive window of white space
    only. *)
Definition blankTokenEnv : gmap string string :=
  <["PROXY_TOKEN" := "   "]> Sample.processEnv.

Definition blankWindowEnv : gmap string string :=
  <["BYBIT_RECV_WINDOW" := "  "]> Sample.processEnv.

(** An upstream that is blocked by the edge and answers 403 with HTML, and
    one that cannot be reached. *)
Definition blockedUpstream (call : FetchCall) : outcome Fetched :=
  Return {| upstreamStatus := 403; text := "<html>blocked</html>" |}.

Definition deadUpstream (call : FetchCall) : outcome Fetched :=
  Throw {| name := "TypeError"; message := "fetch failed" |}.

(** A request without the proxy token header. *)
Definition noTokenRequest : Request :=
  Sample.request "GET" "/bybit/v5/market/time" [] None.

(** The env parameter given twice. *)
Definition repeatedEnv : Request :=
  Sample.envRequest "/bybit/v5/market/time?env=main&env=main" None
                    (Some (Json.JArr [Json.JStr "main"; Json.JStr "main"])).

(** A pre-signed order for the pass-through proxy, with a cookie. *)
Definition presigned : Request :=
  Sample.request "POST" "/mainnet/v5/order/create?x=1?y"
    [("x-bapi-api-key", "K9"); ("x-bapi-sign", "abcd"); ("x-bapi-timestamp", "17");
     ("cookie", "sid=1"); ("user-agent", "curl/8"); ("content-type", "text/plain")]
    (Some (Json.JStr "{}")).

Definition mainnetOrder : Request :=
  Sample.request "POST" "/mainnet/v5/order/create" []
                 (Some (Json.JObj [("symbol", Json.JStr "BTCUSDT")])).

(** Requests whose target is in absolute form, as a client that takes the
    proxy for a forward proxy sends it. *)
Definition absoluteForm : Request :=
  Sample.request "GET" "http://proxy.test/bybit/v5/market/time" [Sample.token] None.

Definition absoluteFormMainnet : Request :=
  Sample.request "GET" "http://proxy.test/mainnet/v5/market/time" [] None.

End Cases.

(** ** The host of an outbound URL *)

Module Url.

(** The characters that end the authority of an https URL. *)
Definition endsAuthority (c : ascii) : bool :=
  Ascii.eqb c "/" || Ascii.eqb c "\" || Ascii.eqb c "?" || Ascii.eqb c "#".

Fixpoint upToDelimiter (s : string) : string :=
  match s with
  | String c s' => if endsAuthority c then EmptyString else String c (upToDelimiter s')
  | EmptyString => EmptyString
  end.

(** The authority of an https URL: what stands between the scheme and the
    first slash, backslash, question mark or hash.  It holds the host, with
    the user information and the port when the URL has them, so a URL whose
    authority is a bare host name is sent to that host. *)
Definition authority (url : string) : option string :=
  match JS.afterPrefix "https://" url with
  | Some rest => Some (upToDelimiter rest)
  | None => None
  end.

End Url.

(** * Properties *)

(** ** Crypto: known answers *)

Lemma sha256_abc :
  Crypto.hex (Crypto.sha256 (Crypto.utf8 "abc"))
  = "ba7816bf8f01cfea414140de5dae2223b00361a396177a9cb410ff61f20015ad".
Proof. vm_compute. reflexivity. Qed.

(** A message of 56 bytes needs a second block for its padding. *)
Lemma sha256_two_blocks :
  Crypto.hex (Crypto.sha256 (repeat 97%Z 56))
  = "b35439a4ac6f0948b6d6f9e3c6af0f5f590ce20f1bde7090ef7970686ec6738a".
Proof. vm_compute. reflexivity. Qed.

(** RFC 4231, test case 2. *)
Lemma hmac_rfc4231_case2 :
  Crypto.digest (Crypto.update (Crypto.createHmac "Jefe") "what do ya want for nothing?")
  = "5bdcc146bf60754e6a042426089575c75a003f089d2739839dec58b964ec3843".
Proof. vm_compute. reflexivity. Qed.

(** Code units from 128 on take two bytes: key and data end in e-acute. *)
Lemma hmac_latin1 :
  Crypto.digest (Crypto.update (Crypto.createHmac ("s" ++ String "233"%char ""))
                               ("caf" ++ String "233"%char ""))
  = "d3b11227943797d53a476ddc8250390989165fdcf3d4e278a8e6ff0a96c00717".
Proof. vm_compute. reflexivity. Qed.

(** A key longer than one block is hashed first. *)
Lemma hmac_long_key :
  Crypto.hex (Crypto.hmacSha256 (repeat 107%Z 70) (Crypto.utf8 "1700000000000KEY5000{}"))
  = "17e97e95d980611994f14bbcaf3413d30df5f10f7fbdcfb605a3d8f821cb6799".
Proof. vm_compute. reflexivity. Qed.

(** ** Crypto: shape of a digest *)

Lemma sha256_length (msg : list Z) : length (Crypto.sha256 msg) = 32%nat.
Proof.
  unfold Crypto.sha256. cbv zeta.
  repeat rewrite List.length_app. reflexivity.
Qed.

Lemma hmacSha256_length (key msg : list Z) : length (Crypto.hmacSha256 key msg) = 32%nat.
Proof. unfold Crypto.hmacSha256. cbv zeta. apply sha256_length. Qed.

Lemma hex_length (bytes : list Z) : String.length (Crypto.hex bytes) = (2 * length bytes)%nat.
Proof.
  induction bytes as [|b bs IH]; [reflexivity|].
  cbn [Crypto.hex String.length length]. rewrite IH. lia.
Qed.

Lemma hexDigit_lower (n : Z) : Spec.isLowerHexDigit (Crypto.hexDigit n) = true.
Proof.
  unfold Crypto.hexDigit. generalize (Z.to_nat n). intros k.
  do 16 (destruct k as [|k]; [reflexivity|]). reflexivity.
Qed.

Lemma hex_lower (bytes : list Z) :
  Forall (fun c => Spec.isLowerHexDigit c = true) (list_ascii_of_string (Crypto.hex bytes)).
Proof.
  induction bytes as [|b bs IH]; cbn [Crypto.hex list_ascii_of_string].
  - constructor.
  - constructor; [apply hexDigit_lower|]. constructor; [apply hexDigit_lower|]. exact IH.
Qed.

Lemma digest_is_hex_hmac (key data : string) :
  Crypto.digest (Crypto.update (Crypto.createHmac key) data)
  = Crypto.hex (Crypto.hmacSha256 (Crypto.utf8 key) (Crypto.utf8 data)).
Proof. reflexivity. Qed.

(** ** C1: the signature *)

(** C1. For every signing input, [signBybit] returns the hex encoding of
    HMAC-SHA256, keyed by the secret, of timestamp, apiKey, recvWindow and
    payload concatenated in that order with no separators; the result is 64
    characters, all of them lower-case hex digits.  The function is the same
    in the unified and in the optional-credentials revision. *)
Theorem signBybit_is_hex_hmac_sha256 (i : Unified.SignInput) :
  Unified.signBybit i
  = Spec.signature (Unified.timestamp i) (Unified.apiKey i) (Unified.recvWindow i)
                   (Unified.payload i) (Unified.secret i)
  /\ Permissive.signBybit i = Unified.signBybit i
  /\ String.length (Unified.signBybit i) = 64%nat
  /\ Forall (fun c => Spec.isLowerHexDigit c = true)
            (list_ascii_of_string (Unified.signBybit i)).
Proof.
  unfold Unified.signBybit, Permissive.signBybit. cbv zeta.
  rewrite digest_is_hex_hmac.
  split; [reflexivity|]. split; [reflexivity|]. split.
  - rewrite hex_length, hmacSha256_length. reflexivity.
  - apply hex_lower.
Qed.

(** The canonical string of the specification is the plain concatenation. *)
Lemma canonicalString_concat (t k w p : string) :
  Spec.canonicalString t k w p = t ++ k ++ w ++ p.
Proof. reflexivity. Qed.

(** ** The proxy token: C5 and C6 *)

Lemma truthy_false (s : string) : JS.truthy s = false <-> s = "".
Proof. destruct s; cbn; split; congruence. Qed.

Lemma truthy_true (s : string) : JS.truthy s = true <-> s <> "".
Proof. destruct s; cbn; split; congruence. Qed.

Lemma handler_refused penv now up req refused :
  Unified.mustAuth penv req = Some refused ->
  Unified.handler penv now up req = (refused, []).
Proof. intros H. unfold Unified.handler. rewrite H. reflexivity. Qed.

Lemma mustAuth_no_token penv req :
  Unified.PROXY_TOKEN penv = "" ->
  Unified.mustAuth penv req = Some (Http.json 500 (Http.errorObject "PROXY_TOKEN not set")).
Proof. intros H. unfold Unified.mustAuth. rewrite H. reflexivity. Qed.

Lemma mustAuth_token penv req :
  Unified.PROXY_TOKEN penv <> "" ->
  Unified.mustAuth penv req
  = if String.eqb (Unified.presented req) (Unified.PROXY_TOKEN penv) then None
    else Some (Http.json 401 (Http.errorObject "Unauthorized")).
Proof.
  intros H. apply truthy_true in H. unfold Unified.mustAuth. rewrite H. cbn.
  destruct (String.eqb _ _); reflexivity.
Qed.

(** A token that is unset, empty or blank counts as not configured. *)
Lemma PROXY_TOKEN_unset penv :
  penv !! "PROXY_TOKEN" = None -> Unified.PROXY_TOKEN penv = "".
Proof. intros H. unfold Unified.PROXY_TOKEN. rewrite H. reflexivity. Qed.

(** C5, as stated, fails in its 401 clause: a presented token that is the
    configured one followed by a no-break space does not equal the configured
    token, yet the request is not answered 401; it is forwarded with one
    outbound call and the upstream's 200 is relayed. *)
Lemma authGate_forwards_padded_token :
  Http.header Sample.nbspTokenRequest "X-PROXY-TOKEN" = Some ("s3cret" ++ Sample.nbsp)
  /\ "s3cret" ++ Sample.nbsp <> Unified.PROXY_TOKEN Sample.processEnv
  /\ Http.status (fst (Unified.handler Sample.processEnv Sample.now Sample.upstream
                         Sample.nbspTokenRequest)) = 200%Z
  /\ length (snd (Unified.handler Sample.processEnv Sample.now Sample.upstream
                    Sample.nbspTokenRequest)) = 1%nat.
Proof. repeat split; try (vm_compute; reflexivity). vm_compute. discriminate. Qed.

(** C5, amended. With no proxy token configured every request is answered
    500 (PROXY_TOKEN not set); with a token configured, a request whose
    X-PROXY-TOKEN header value, with leading and trailing white space trimmed
    (an absent header counting as empty), is not the configured token is
    answered 401 (Unauthorized); in both cases the handler makes no outbound
    call. *)
Theorem authGate_fails_closed penv now up req :
  (Unified.PROXY_TOKEN penv = "" ->
     Unified.handler penv now up req
       = (Http.json 500 (Http.errorObject "PROXY_TOKEN not set"), [])
     /\ Http.status (fst (Unified.handler penv now up req)) = 500%Z
     /\ snd (Unified.handler penv now up req) = [])
  /\ (Unified.PROXY_TOKEN penv <> "" ->
      JS.trim (JS.or (Http.header req "X-PROXY-TOKEN") "") <> Unified.PROXY_TOKEN penv ->
     Unified.handler penv now up req
       = (Http.json 401 (Http.errorObject "Unauthorized"), [])
     /\ Http.status (fst (Unified.handler penv now up req)) = 401%Z
     /\ snd (Unified.handler penv now up req) = []).
Proof.
  split.
  - intros Hno.
    rewrite (handler_refused _ _ _ _ _ (mustAuth_no_token penv req Hno)).
    repeat split.
  - intros Hset Hne.
    assert (Hm : Unified.mustAuth penv req
                 = Some (Http.json 401 (Http.errorObject "Unauthorized"))).
    { rewrite (mustAuth_token _ _ Hset). unfold Unified.presented.
      destruct (String.eqb_spec (JS.trim (JS.or (Http.header req "X-PROXY-TOKEN") ""))
                                (Unified.PROXY_TOKEN penv));
        [contradiction | reflexivity]. }
    rewrite (handler_refused _ _ _ _ _ Hm). repeat split.
Qed.

Lemma authGate_fails_closed_witness :
  (Unified.handler Sample.noTokenEnv Sample.now Sample.upstream Sample.wrongTokenRequest
     = (Http.json 500 (Http.errorObject "PROXY_TOKEN not set"), []))
  /\ (Unified.handler Sample.processEnv Sample.now Sample.upstream Sample.wrongTokenRequest
     = (Http.json 401 (Http.errorObject "Unauthorized"), [])).
Proof.
  split.
  - apply (authGate_fails_closed Sample.noTokenEnv Sample.now Sample.upstream
             Sample.wrongTokenRequest).
    vm_compute. reflexivity.
  - apply (authGate_fails_closed Sample.processEnv Sample.now Sample.upstream
             Sample.wrongTokenRequest); vm_compute; discriminate.
Defined.

(** C6, as stated, fails: a presented token that differs from the configured
    one only by surrounding white space (spaces, or a trailing no-break space)
    is not the configured token, and the gate lets it through. *)
Lemma authGate_accepts_padded_token :
  Unified.PROXY_TOKEN Sample.processEnv = "s3cret"
  /\ Http.header Sample.spacedTokenRequest "X-PROXY-TOKEN" = Some " s3cret "
  /\ " s3cret " <> "s3cret"
  /\ Unified.mustAuth Sample.processEnv Sample.spacedTokenRequest = None
  /\ Http.header Sample.nbspTokenRequest "X-PROXY-TOKEN" = Some ("s3cret" ++ Sample.nbsp)
  /\ "s3cret" ++ Sample.nbsp <> "s3cret"
  /\ Unified.mustAuth Sample.processEnv Sample.nbspTokenRequest = None.
Proof. repeat split; try (vm_compute; reflexivity); vm_compute; discriminate. Qed.

(** C6, amended. With a token configured, the gate rejects with Unauthorized
    exactly when the presented header value, with leading and trailing white
    space trimmed (an absent header counting as empty), differs from the
    configured token, and lets the request through exactly when the trimmed
    value is the token. *)
Theorem authGate_compares_trimmed penv req :
  Unified.PROXY_TOKEN penv <> "" ->
  (Unified.mustAuth penv req = Some (Http.json 401 (Http.errorObject "Unauthorized"))
     <-> JS.trim (JS.or (Http.header req "X-PROXY-TOKEN") "") <> Unified.PROXY_TOKEN penv)
  /\ (Unified.mustAuth penv req = None
     <-> JS.trim (JS.or (Http.header req "X-PROXY-TOKEN") "") = Unified.PROXY_TOKEN penv).
Proof.
  intros Hset. rewrite (mustAuth_token _ _ Hset). unfold Unified.presented.
  destruct (String.eqb_spec (JS.trim (JS.or (Http.header req "X-PROXY-TOKEN") ""))
                            (Unified.PROXY_TOKEN penv)) as [Heq | Hne].
  - split; split; intros H; first [congruence | reflexivity].
  - split; split; intros H; first [congruence | reflexivity].
Qed.

Lemma authGate_compares_trimmed_witness :
  (Unified.mustAuth Sample.processEnv Sample.wrongTokenRequest
     = Some (Http.json 401 (Http.errorObject "Unauthorized"))
   <-> JS.trim (JS.or (Http.header Sample.wrongTokenRequest "X-PROXY-TOKEN") "")
       <> Unified.PROXY_TOKEN Sample.processEnv)
  /\ (Unified.mustAuth Sample.processEnv Sample.wrongTokenRequest = None
     <-> JS.trim (JS.or (Http.header Sample.wrongTokenRequest "X-PROXY-TOKEN") "")
         = Unified.PROXY_TOKEN Sample.processEnv).
Proof.
  apply (authGate_compares_trimmed Sample.processEnv Sample.wrongTokenRequest).
  vm_compute. discriminate.
Defined.

(** ** The environment selector: C7 and C8 *)

Lemma or_some_truthy (s d : string) : s <> "" -> JS.or (Some s) d = s.
Proof. intros H. apply truthy_true in H. unfold JS.or. rewrite H. reflexivity. Qed.

Lemma or_some_empty (d : string) : JS.or (Some "") d = d.
Proof. reflexivity. Qed.

Lemma pickEnv_resolved req :
  Unified.pickEnv req
  = if negb (String.eqb (Unified.resolvedEnv req) "demo")
       && negb (String.eqb (Unified.resolvedEnv req) "main")
    then Http.Throw (Unified.invalidEnv (Unified.resolvedEnv req))
    else Http.Return (Unified.resolvedEnv req).
Proof. reflexivity. Qed.




Lemma errorText_invalidEnv env :
  Http.errorText (Unified.invalidEnv env) = Http.message (Unified.invalidEnv env).
Proof. reflexivity. Qed.



(** ** Request targets: cutting at question marks *)

Lemma append_cons (c : ascii) (a b : string) : String c a ++ b = String c (a ++ b).
Proof. reflexivity. Qed.

Lemma append_nil (a : string) : a ++ "" = a.
Proof. induction a as [|c a IH]; [reflexivity|]. rewrite append_cons, IH. reflexivity. Qed.

Lemma split_cutTarget (s : string) :
  JS.split "?" s
  = fst (Spec.cutTarget s)
    :: match snd (Spec.cutTarget s) with
       | Some rest => JS.split "?" rest
       | None => []
       end.
Proof.
  induction s as [|c s IH]; [reflexivity|].
  cbn [JS.split Spec.cutTarget].
  destruct (Ascii.eqb c "?"); [reflexivity|].
  rewrite IH. destruct (Spec.cutTarget s) as [p q]. reflexivity.
Qed.

(** The destructuring [[pathname, qs = ""] = path.split("?")]. *)
Lemma split_first (s : string) : JS.split "?" s !! 0%nat = Some (fst (Spec.cutTarget s)).
Proof. rewrite split_cutTarget. reflexivity. Qed.

Lemma split_second (s : string) :
  default "" (JS.split "?" s !! 1%nat)
  = match snd (Spec.cutTarget s) with
    | Some q => fst (Spec.cutTarget q)
    | None => ""
    end.
Proof.
  rewrite split_cutTarget. destruct (snd (Spec.cutTarget s)) as [q|]; [|reflexivity].
  rewrite split_cutTarget. reflexivity.
Qed.

Lemma cutTarget_join (s : string) :
  s = fst (Spec.cutTarget s)
      ++ match snd (Spec.cutTarget s) with Some q => "?" ++ q | None => "" end.
Proof.
  induction s as [|c s IH]; [reflexivity|].
  cbn [Spec.cutTarget]. destruct (Ascii.eqb_spec c "?") as [-> | Hc]; [reflexivity|].
  destruct (Spec.cutTarget s) as [p q]. cbn [fst snd] in *.
  rewrite append_cons. f_equal. exact IH.
Qed.

Lemma cutTarget_no_query (s : string) :
  snd (Spec.cutTarget s) = None -> fst (Spec.cutTarget s) = s.
Proof.
  intros H. rewrite (cutTarget_join s) at 2. rewrite H, append_nil. reflexivity.
Qed.

Lemma afterPrefix_spec (p s rest : string) :
  JS.afterPrefix p s = Some rest -> s = p ++ rest.
Proof.
  revert s. induction p as [|a p IH]; intros s H.
  - cbn in H. injection H as ->. reflexivity.
  - destruct s as [|b s]; [discriminate|]. cbn in H.
    destruct (Ascii.eqb_spec a b) as [-> | _]; [|discriminate].
    rewrite append_cons. f_equal. apply IH. exact H.
Qed.

Lemma afterPrefix_app (p a r b : string) :
  JS.afterPrefix p a = Some r -> JS.afterPrefix p (a ++ b) = Some (r ++ b).
Proof.
  revert a. induction p as [|x p IH]; intros a H.
  - cbn in *. congruence.
  - destruct a as [|y a]; [discriminate|]. rewrite append_cons. cbn in *.
    destruct (Ascii.eqb x y); [apply IH; exact H | discriminate].
Qed.

(** A prefix without a question mark stays in the path when the target is
    cut. *)
Lemma cutTarget_after_prefix (p s rest : string) :
  snd (Spec.cutTarget p) = None ->
  JS.afterPrefix p s = Some rest ->
  Spec.cutTarget s = (p ++ fst (Spec.cutTarget rest), snd (Spec.cutTarget rest)).
Proof.
  revert s. induction p as [|a p IH]; intros s Hp H.
  - cbn in H. injection H as ->. destruct (Spec.cutTarget rest); reflexivity.
  - destruct s as [|b s]; [discriminate|]. cbn in H.
    destruct (Ascii.eqb_spec a b) as [<- | _]; [|discriminate].
    cbn [Spec.cutTarget] in *. destruct (Ascii.eqb a "?"); [discriminate|].
    destruct (Spec.cutTarget p) as [pp pq] eqn:Ep. cbn [snd] in Hp.
    rewrite (IH s Hp H). reflexivity.
Qed.

(** Removing an anchored prefix commutes with cutting the target. *)
Lemma replaceAnchored_cutTarget (p s : string) :
  snd (Spec.cutTarget p) = None ->
  Spec.cutTarget (JS.replaceAnchored p "" s)
  = (JS.replaceAnchored p "" (fst (Spec.cutTarget s)), snd (Spec.cutTarget s)).
Proof.
  intros Hp. unfold JS.replaceAnchored.
  destruct (JS.afterPrefix p s) as [rest|] eqn:E.
  - change ("" ++ rest) with rest.
    rewrite (cutTarget_after_prefix p s rest Hp E). cbn [fst snd].
    assert (Hq : JS.afterPrefix p (p ++ fst (Spec.cutTarget rest))
                 = Some (fst (Spec.cutTarget rest))).
    { clear. induction p as [|a p IH]; [reflexivity|].
      rewrite append_cons. cbn. rewrite Ascii.eqb_refl. exact IH. }
    rewrite Hq. destruct (Spec.cutTarget rest); reflexivity.
  - destruct (JS.afterPrefix p (fst (Spec.cutTarget s))) as [r|] eqn:E'.
    + exfalso.
      pose proof (afterPrefix_app p _ r
                    (match snd (Spec.cutTarget s) with Some q => "?" ++ q | None => "" end)
                    E') as H.
      rewrite <- cutTarget_join in H. congruence.
    + destruct (Spec.cutTarget s); reflexivity.
Qed.

(** ** The handler and its outbound call *)

(** A handler makes one [fetch]; whether the upstream answers or fails, the
    trace holds that one call. *)
Ltac single_fetch up :=
  destruct (up _); cbn [snd app In]; intros [<- | []].

Lemma handler_calls penv now up req call :
  In call (snd (Unified.handler penv now up req)) ->
  Unified.mustAuth penv req = None
  /\ exists env creds,
       Unified.pickEnv req = Http.Return env
       /\ Unified.credsFor penv env = Http.Return creds
       /\ call = Unified.outboundCall penv now (Unified.forwardArgs creds req).
Proof.
  unfold Unified.handler.
  destruct (Unified.mustAuth penv req) as [refused|]; [intros []|].
  destruct (Unified.pickEnv req) as [env|e]; [|intros []].
  cbn [Http.lift Http.bind].
  destruct (Unified.credsFor penv env) as [creds|e] eqn:Ec; [|intros []].
  unfold Unified.forwardToBybit, Http.fetch. cbn [Http.bind Http.ret].
  single_fetch up; (split; [reflexivity|]); exists env, creds; repeat split; assumption.
Qed.


Lemma or_self (s : string) : JS.or (Some s) "" = s.
Proof. destruct s; reflexivity. Qed.

Lemma forwardArgs_method creds req :
  Unified.argMethod (Unified.forwardArgs creds req) = JS.toUpperCase (Http.method req).
Proof.
  unfold Unified.forwardArgs. cbv zeta.
  destruct (String.eqb (JS.toUpperCase (Http.method req)) "GET"); reflexivity.
Qed.

(** The body the handler serialises: [req.body ?? {}]. *)
Lemma forwardArgs_not_get creds req :
  JS.toUpperCase (Http.method req) <> "GET" ->
  Unified.argBodyJson (Unified.forwardArgs creds req)
  = Json.stringify (match Http.body req with
                    | None | Some Json.JNull => Json.JObj []
                    | Some v => v
                    end)
  /\ Unified.argPayload (Unified.forwardArgs creds req)
     = Unified.argBodyJson (Unified.forwardArgs creds req).
Proof.
  intros Hm. unfold Unified.forwardArgs. cbv zeta.
  destruct (String.eqb_spec (JS.toUpperCase (Http.method req)) "GET"); [contradiction|].
  split; reflexivity.
Qed.

Lemma forwardArgs_get creds req :
  JS.toUpperCase (Http.method req) = "GET" ->
  Unified.argPayload (Unified.forwardArgs creds req)
  = default "" (JS.split "?" (JS.replaceAnchored "/bybit" "" (Http.originalUrl req)) !! 1%nat).
Proof.
  intros Hm. unfold Unified.forwardArgs. cbv zeta. rewrite Hm.
  cbn [String.eqb Ascii.eqb Bool.eqb Unified.argPayload]. apply or_self.
Qed.

Lemma outboundCall_body penv now a :
  Http.optsBody (Unified.outboundCall penv now a)
  = if String.eqb (Unified.argMethod a) "GET" then None else Some (Unified.argBodyJson a).
Proof. unfold Unified.outboundCall. cbn. destruct (String.eqb _ _); reflexivity. Qed.

Lemma outboundCall_signature penv now a :
  Http.optsHeaders (Unified.outboundCall penv now a) !! "X-BAPI-SIGN"
  = Some (Unified.signBybit
            {| Unified.timestamp := JS.numberToString now;
               Unified.apiKey := Unified.argApiKey a;
               Unified.secret := Unified.argSecret a;
               Unified.recvWindow := Unified.RECV_WINDOW penv;
               Unified.payload := Unified.argPayload a |}).
Proof.
  unfold Unified.outboundCall. cbn [Http.optsHeaders].
  rewrite lookup_insert_ne by discriminate.
  rewrite lookup_insert_ne by discriminate.
  apply lookup_insert_eq.
Qed.

(** ** C2: one serialisation is signed and sent *)

(** C2. For every request whose method is not GET, every outbound call the
    handler makes carries as body exactly the payload string of the
    forwarding arguments, and its X-BAPI-SIGN header is the signature computed
    over that same string. *)
Theorem outbound_body_is_signed_payload penv now up req call :
  JS.toUpperCase (Http.method req) <> "GET" ->
  In call (snd (Unified.handler penv now up req)) ->
  exists creds,
    Http.optsBody call = Some (Unified.argPayload (Unified.forwardArgs creds req))
    /\ Http.optsHeaders call !! "X-BAPI-SIGN"
       = Some (Unified.signBybit
                 {| Unified.timestamp := JS.numberToString now;
                    Unified.apiKey := Unified.credsApiKey creds;
                    Unified.secret := Unified.credsSecret creds;
                    Unified.recvWindow := Unified.RECV_WINDOW penv;
                    Unified.payload := Unified.argPayload (Unified.forwardArgs creds req) |}).
Proof.
  intros Hm Hin.
  destruct (handler_calls _ _ _ _ _ Hin) as (_ & env & creds & _ & _ & ->).
  exists creds. split.
  - rewrite outboundCall_body, forwardArgs_method.
    destruct (String.eqb_spec (JS.toUpperCase (Http.method req)) "GET"); [contradiction|].
    f_equal. symmetry. apply (forwardArgs_not_get creds req Hm).
  - rewrite outboundCall_signature. do 2 f_equal.
    unfold Unified.forwardArgs. cbv zeta.
    destruct (String.eqb _ "GET"); reflexivity.
Qed.

Lemma outbound_body_is_signed_payload_witness :
  exists creds,
    Http.optsBody Sample.postOrderCall
      = Some (Unified.argPayload (Unified.forwardArgs creds Sample.postOrder))
    /\ Http.optsHeaders Sample.postOrderCall !! "X-BAPI-SIGN"
       = Some (Unified.signBybit
                 {| Unified.timestamp := JS.numberToString Sample.now;
                    Unified.apiKey := Unified.credsApiKey creds;
                    Unified.secret := Unified.credsSecret creds;
                    Unified.recvWindow := Unified.RECV_WINDOW Sample.processEnv;
                    Unified.payload :=
                      Unified.argPayload (Unified.forwardArgs creds Sample.postOrder) |}).
Proof.
  apply (outbound_body_is_signed_payload Sample.processEnv Sample.now Sample.upstream
           Sample.postOrder Sample.postOrderCall).
  - vm_compute. discriminate.
  - vm_compute. left. reflexivity.
Defined.

(** ** C3 and C4: the query string in the payload and in the URL *)

Lemma bybit_prefix_has_no_query : snd (Spec.cutTarget "/bybit") = None.
Proof. reflexivity. Qed.

(** What the handler takes for the query string: the text between the first
    and the second question mark of the target. *)
Lemma forwardArgs_qs (target : string) :
  default "" (JS.split "?" (JS.replaceAnchored "/bybit" "" target) !! 1%nat)
  = match snd (Spec.cutTarget target) with
    | Some q => fst (Spec.cutTarget q)
    | None => ""
    end.
Proof.
  rewrite split_second, (replaceAnchored_cutTarget _ _ bybit_prefix_has_no_query).
  reflexivity.
Qed.

Lemma forwardArgs_url creds req :
  Unified.argUrl (Unified.forwardArgs creds req)
  = Unified.baseUrl creds
    ++ JS.replaceAnchored "/bybit" "" (fst (Spec.cutTarget (Http.originalUrl req)))
    ++ match snd (Spec.cutTarget (Http.originalUrl req)) with
       | Some q => if JS.truthy (fst (Spec.cutTarget q))
                   then "?" ++ fst (Spec.cutTarget q) else ""
       | None => ""
       end.
Proof.
  assert (H : Unified.argUrl (Unified.forwardArgs creds req)
              = Unified.baseUrl creds
                ++ JS.interpolate
                     (JS.split "?" (JS.replaceAnchored "/bybit" "" (Http.originalUrl req))
                        !! 0%nat)
                ++ (if JS.truthy
                         (default "" (JS.split "?" (JS.replaceAnchored "/bybit" ""
                                                      (Http.originalUrl req)) !! 1%nat))
                    then "?" ++ default "" (JS.split "?" (JS.replaceAnchored "/bybit" ""
                                                            (Http.originalUrl req)) !! 1%nat)
                    else "")).
  { unfold Unified.forwardArgs. cbv zeta. destruct (String.eqb _ "GET"); reflexivity. }
  rewrite H, forwardArgs_qs, split_first,
    (replaceAnchored_cutTarget _ _ bybit_prefix_has_no_query).
  cbn [fst JS.interpolate].
  destruct (snd (Spec.cutTarget (Http.originalUrl req))); reflexivity.
Qed.

(** The payload of a GET is the text between the first and the second
    question mark of the target. *)
Lemma get_payload_first_segment creds req :
  JS.toUpperCase (Http.method req) = "GET" ->
  Unified.argPayload (Unified.forwardArgs creds req)
  = match snd (Spec.cutTarget (Http.originalUrl req)) with
    | Some q => fst (Spec.cutTarget q)
    | None => ""
    end.
Proof. intros Hm. rewrite (forwardArgs_get _ _ Hm). apply forwardArgs_qs. Qed.

(** On targets whose query string holds no question mark of its own, the
    payload of a GET is the query string, and it is empty without one. *)
Lemma get_payload_is_query creds req :
  JS.toUpperCase (Http.method req) = "GET" ->
  match snd (Spec.cutTarget (Http.originalUrl req)) with
  | Some q => snd (Spec.cutTarget q) = None
  | None => True
  end ->
  Unified.argPayload (Unified.forwardArgs creds req)
  = Spec.getPayload (Http.originalUrl req).
Proof.
  intros Hm Hq. rewrite (get_payload_first_segment _ _ Hm). unfold Spec.getPayload.
  destruct (snd (Spec.cutTarget (Http.originalUrl req))) as [q|]; [|reflexivity].
  cbn. apply cutTarget_no_query. exact Hq.
Qed.

Lemma get_payload_kline :
  Unified.argPayload (Unified.forwardArgs Sample.demoCreds Sample.getKline)
  = "symbol=BTCUSDT&interval=1".
Proof.
  rewrite (get_payload_is_query Sample.demoCreds Sample.getKline);
    vm_compute; reflexivity.
Qed.

(** C3, the code at the failing input: for a GET whose query string is
    category=linear&cursor=a?b the signing payload is cut at the inner
    question mark, while the query string without its leading question mark
    is the whole of it; the signature sent is computed over the cut text. *)
Theorem get_payload_cut_at_second_question_mark :
  JS.toUpperCase (Http.method Sample.getTickers) = "GET"
  /\ Spec.getPayload (Http.originalUrl Sample.getTickers) = "category=linear&cursor=a?b"
  /\ Unified.argPayload (Unified.forwardArgs Sample.demoCreds Sample.getTickers)
     = "category=linear&cursor=a"
  /\ snd (Unified.handler Sample.processEnv Sample.now Sample.upstream Sample.getTickers)
     = [Unified.outboundCall Sample.processEnv Sample.now
          (Unified.forwardArgs Sample.demoCreds Sample.getTickers)]
  /\ Http.optsHeaders (Unified.outboundCall Sample.processEnv Sample.now
                         (Unified.forwardArgs Sample.demoCreds Sample.getTickers))
       !! "X-BAPI-SIGN"
     = Some (Unified.signBybit
               {| Unified.timestamp := "1700000000000"; Unified.apiKey := "K1";
                  Unified.secret := "S3"; Unified.recvWindow := "5000";
                  Unified.payload := "category=linear&cursor=a" |}).
Proof. repeat split; vm_compute; reflexivity. Qed.

(** On targets whose query string is not empty and holds no question mark
    of its own, and on targets without a query string, the URL is the base
    URL, the path without the routing prefix and the query string. *)
Lemma url_is_passthrough creds req :
  match snd (Spec.cutTarget (Http.originalUrl req)) with
  | Some q => q <> "" /\ snd (Spec.cutTarget q) = None
  | None => True
  end ->
  Unified.argUrl (Unified.forwardArgs creds req)
  = Spec.outboundUrl (Unified.baseUrl creds) "/bybit" (Http.originalUrl req).
Proof.
  intros Hq. rewrite forwardArgs_url. unfold Spec.outboundUrl.
  destruct (Spec.cutTarget (Http.originalUrl req)) as [p [q|]]; cbn [fst snd] in *;
    [|reflexivity].
  destruct Hq as [Hne Hq]. rewrite (cutTarget_no_query q Hq).
  apply truthy_true in Hne. rewrite Hne. reflexivity.
Qed.

(** The pass-through revision builds the URL from the whole target, so every
    query string survives, question marks included. *)
Lemma passthrough_url_is_spec req :
  Http.url (Passthrough.outboundCall req Passthrough.BYBIT_MAINNET "mainnet")
  = Spec.outboundUrl Passthrough.BYBIT_MAINNET "/mainnet" (Http.originalUrl req).
Proof.
  unfold Passthrough.outboundCall, Spec.outboundUrl. cbn [Http.url].
  change ("/" ++ "mainnet") with "/mainnet".
  rewrite (cutTarget_join (JS.replaceAnchored "/mainnet" "" (Http.originalUrl req))).
  rewrite (replaceAnchored_cutTarget "/mainnet" (Http.originalUrl req) eq_refl).
  destruct (Spec.cutTarget (Http.originalUrl req)) as [p q]. reflexivity.
Qed.

(** C4, the code at the failing input: for the target
    /bybit/v5/market/tickers?category=linear&cursor=a?b the outbound URL loses
    the inner question mark and what follows it, where the claim has the
    query string pass through unchanged. *)
Theorem url_cut_at_second_question_mark :
  Spec.outboundUrl (Unified.baseUrl Sample.demoCreds) "/bybit"
                   (Http.originalUrl Sample.getTickers)
  = "https://api-demo-testnet.bybit.com/v5/market/tickers?category=linear&cursor=a?b"
  /\ Unified.argUrl (Unified.forwardArgs Sample.demoCreds Sample.getTickers)
     = "https://api-demo-testnet.bybit.com/v5/market/tickers?category=linear&cursor=a"
  /\ map Http.url
         (snd (Unified.handler Sample.processEnv Sample.now Sample.upstream
                 Sample.getTickers))
     = ["https://api-demo-testnet.bybit.com/v5/market/tickers?category=linear&cursor=a"].
Proof. repeat split; vm_compute; reflexivity. Qed.

(** ** C10: an absent body is sent and signed as the empty object *)

Lemma numberToString_nonempty (n : N) : JS.numberToString n <> "".
Proof.
  unfold JS.numberToString.
  assert (H : forall d, NilEmpty.string_of_uint d = "" -> d = Decimal.Nil).
  { intros d. destruct d; cbn; congruence. }
  intros E. apply H in E. destruct n as [|p]; [discriminate|].
  cbn in E. exact (DecimalPos.Unsigned.to_uint_nonnil p E).
Qed.

Lemma stringify_nonempty (v : Json.value) : Json.stringify v <> "".
Proof.
  destruct v as [|[|]|n|s|items|props]; cbn [Json.stringify]; try discriminate.
  destruct n as [|p|p]; cbn [Json.numberToString Z.to_N]; try discriminate;
    apply numberToString_nonempty.
Qed.

Lemma stringify_absent (b : option Json.value) :
  b = None \/ b = Some Json.JNull ->
  Json.stringify (match b with
                  | None | Some Json.JNull => Json.JObj []
                  | Some v => v
                  end) = "{}".
Proof. intros [-> | ->]; reflexivity. Qed.

Lemma permissive_calls penv now up prefix env req call :
  In call (snd (Permissive.routeHandler penv now up prefix env req)) ->
  call = Permissive.outboundCall penv now
           (Permissive.forwardArgs prefix (Permissive.credsFor penv env) req).
Proof.
  unfold Permissive.routeHandler, Permissive.mustAuth, Permissive.forwardToBybit, Http.fetch.
  cbn [Http.bind Http.ret].
  single_fetch up; reflexivity.
Qed.

Lemma permissive_not_get prefix creds req :
  JS.toUpperCase (Http.method req) <> "GET" ->
  Permissive.argMethod (Permissive.forwardArgs prefix creds req)
    = JS.toUpperCase (Http.method req)
  /\ Permissive.argBodyJson (Permissive.forwardArgs prefix creds req)
     = Json.stringify (match Http.body req with
                       | None | Some Json.JNull => Json.JObj []
                       | Some v => v
                       end)
  /\ Permissive.argPayload (Permissive.forwardArgs prefix creds req)
     = Permissive.argBodyJson (Permissive.forwardArgs prefix creds req).
Proof.
  intros Hm. unfold Permissive.forwardArgs. cbv zeta.
  destruct (String.eqb_spec (JS.toUpperCase (Http.method req)) "GET"); [contradiction|].
  repeat split.
Qed.

Lemma permissive_body penv now a :
  Http.optsBody (Permissive.outboundCall penv now a)
  = if String.eqb (Permissive.argMethod a) "GET" then None
    else Some (Permissive.argBodyJson a).
Proof. unfold Permissive.outboundCall. cbn. destruct (String.eqb _ _); reflexivity. Qed.

(** When the optional-credentials revision signs, it signs the payload of
    the forwarding arguments. *)
Lemma permissive_signature penv now a sig :
  Http.optsHeaders (Permissive.outboundCall penv now a) !! "X-BAPI-SIGN" = Some sig ->
  exists key secret,
    Permissive.argApiKey a = Some key /\ Permissive.argSecret a = Some secret
    /\ sig = Permissive.signBybit
               {| Unified.timestamp := JS.numberToString now; Unified.apiKey := key;
                  Unified.secret := secret;
                  Unified.recvWindow := Permissive.RECV_WINDOW penv;
                  Unified.payload := Permissive.argPayload a |}.
Proof.
  unfold Permissive.outboundCall. cbn [Http.optsHeaders].
  destruct (Permissive.argApiKey a) as [key|], (Permissive.argSecret a) as [secret|];
    try (rewrite lookup_insert_ne by discriminate; rewrite lookup_empty; discriminate).
  destruct (JS.truthy key && JS.truthy secret).
  - rewrite lookup_insert_ne by discriminate. rewrite lookup_insert_eq.
    intros [= <-]. exists key, secret. repeat split.
  - rewrite lookup_insert_ne by discriminate. rewrite lookup_empty. discriminate.
Qed.

(** C10. For every request whose method is not GET, the body of every
    outbound call is a non-empty string; when the parsed inbound body is
    absent (undefined or null) that body is the two characters of the empty
    object and the signature is computed over them.  This holds for the
    unified handler and for the routes of the optional-credentials revision,
    which signs only when it has keys. *)
Theorem absent_body_is_empty_object penv now up req call :
  JS.toUpperCase (Http.method req) <> "GET" ->
  (In call (snd (Unified.handler penv now up req)) ->
     (exists sent, Http.optsBody call = Some sent /\ sent <> "")
     /\ (Http.body req = None \/ Http.body req = Some Json.JNull ->
         Http.optsBody call = Some "{}"
         /\ exists creds,
              Http.optsHeaders call !! "X-BAPI-SIGN"
              = Some (Unified.signBybit
                        {| Unified.timestamp := JS.numberToString now;
                           Unified.apiKey := Unified.credsApiKey creds;
                           Unified.secret := Unified.credsSecret creds;
                           Unified.recvWindow := Unified.RECV_WINDOW penv;
                           Unified.payload := "{}" |})))
  /\ (forall prefix env,
        In call (snd (Permissive.routeHandler penv now up prefix env req)) ->
        (exists sent, Http.optsBody call = Some sent /\ sent <> "")
        /\ (Http.body req = None \/ Http.body req = Some Json.JNull ->
            Http.optsBody call = Some "{}"
            /\ forall sig,
                 Http.optsHeaders call !! "X-BAPI-SIGN" = Some sig ->
                 exists key secret,
                   sig = Permissive.signBybit
                           {| Unified.timestamp := JS.numberToString now;
                              Unified.apiKey := key; Unified.secret := secret;
                              Unified.recvWindow := Permissive.RECV_WINDOW penv;
                              Unified.payload := "{}" |})).
Proof.
  intros Hm. split.
  - intros Hin.
    destruct (handler_calls _ _ _ _ _ Hin) as (_ & env & creds & _ & _ & ->).
    destruct (forwardArgs_not_get creds req Hm) as [Hjson Hpay].
    assert (Hbody : Http.optsBody (Unified.outboundCall penv now (Unified.forwardArgs creds req))
                    = Some (Unified.argBodyJson (Unified.forwardArgs creds req))).
    { rewrite outboundCall_body, forwardArgs_method.
      destruct (String.eqb_spec (JS.toUpperCase (Http.method req)) "GET");
        [contradiction | reflexivity]. }
    split.
    + eexists. split; [exact Hbody|]. rewrite Hjson. apply stringify_nonempty.
    + intros Habs. rewrite Hbody, Hjson, (stringify_absent _ Habs).
      split; [reflexivity|]. exists creds.
      rewrite outboundCall_signature, Hpay, Hjson, (stringify_absent _ Habs).
      unfold Unified.forwardArgs. cbv zeta.
      destruct (String.eqb _ "GET"); reflexivity.
  - intros prefix env Hin. rewrite (permissive_calls _ _ _ _ _ _ _ Hin).
    destruct (permissive_not_get prefix (Permissive.credsFor penv env) req Hm)
      as (Hmeth & Hjson & Hpay).
    assert (Hbody : Http.optsBody
                      (Permissive.outboundCall penv now
                         (Permissive.forwardArgs prefix (Permissive.credsFor penv env) req))
                    = Some (Permissive.argBodyJson
                              (Permissive.forwardArgs prefix (Permissive.credsFor penv env) req))).
    { rewrite permissive_body, Hmeth.
      destruct (String.eqb_spec (JS.toUpperCase (Http.method req)) "GET");
        [contradiction | reflexivity]. }
    split.
    + eexists. split; [exact Hbody|]. rewrite Hjson. apply stringify_nonempty.
    + intros Habs. rewrite Hbody, Hjson, (stringify_absent _ Habs).
      split; [reflexivity|]. intros sig Hsig.
      destruct (permissive_signature _ _ _ _ Hsig) as (key & secret & _ & _ & ->).
      exists key, secret. rewrite Hpay, Hjson, (stringify_absent _ Habs). reflexivity.
Qed.

Lemma absent_body_is_empty_object_witness :
  Http.optsBody Sample.postNoBodyCall = Some "{}"
  /\ exists creds,
       Http.optsHeaders Sample.postNoBodyCall !! "X-BAPI-SIGN"
       = Some (Unified.signBybit
                 {| Unified.timestamp := JS.numberToString Sample.now;
                    Unified.apiKey := Unified.credsApiKey creds;
                    Unified.secret := Unified.credsSecret creds;
                    Unified.recvWindow := Unified.RECV_WINDOW Sample.processEnv;
                    Unified.payload := "{}" |}).
Proof.
  apply (absent_body_is_empty_object Sample.processEnv Sample.now Sample.upstream
           Sample.postNoBody Sample.postNoBodyCall).
  - vm_compute. discriminate.
  - vm_compute. left. reflexivity.
  - left. reflexivity.
Defined.

(** ** C9: which calls carry a body *)

Lemma passthrough_calls up req baseUrl prefix call :
  In call (snd (Passthrough.proxyToBybit up req baseUrl prefix)) ->
  call = Passthrough.outboundCall req baseUrl prefix.
Proof.
  unfold Passthrough.proxyToBybit, Http.fetch. cbn [Http.bind Http.ret].
  single_fetch up; reflexivity.
Qed.

Lemma passthrough_body req baseUrl prefix :
  Http.optsBody (Passthrough.outboundCall req baseUrl prefix)
  = Passthrough.bodyFor (JS.toUpperCase (Http.method req)) (Http.body req).
Proof. reflexivity. Qed.

(** C9, as stated, fails in both directions.  The pass-through proxy sets no
    body for a POST whose parsed body is the empty text; and the signing
    forwarder, which tests for GET only, attaches the serialised body to a
    HEAD request, where the pass-through proxy sends none. *)
Lemma body_rule_differs_from_claim :
  JS.toUpperCase (Http.method Sample.postEmptyText) = "POST"
  /\ map Http.optsBody
         (snd (Passthrough.proxyToBybit Sample.upstream Sample.postEmptyText
                 Passthrough.BYBIT_MAINNET "mainnet"))
     = [None]
  /\ JS.toUpperCase (Http.method Sample.headTime) = "HEAD"
  /\ map Http.optsBody
         (snd (Unified.handler Sample.processEnv Sample.now Sample.upstream Sample.headTime))
     = [Some "{}"]
  /\ map Http.optsBody
         (snd (Passthrough.proxyToBybit Sample.upstream Sample.headMainnet
                 Passthrough.BYBIT_MAINNET "mainnet"))
     = [None].
Proof. repeat split; vm_compute; reflexivity. Qed.

(** C9, amended. A GET carries no body, in the signing forwarder and in the
    pass-through proxy; in the pass-through proxy a HEAD carries none either.
    For every method other than GET and HEAD the signing forwarder always
    sends a body, and the pass-through proxy sends one exactly when the parsed
    inbound body is an object (null included) or another truthy value: an
    undefined body or an empty text sets none. *)
Theorem body_follows_method penv now up req call :
  (In call (snd (Unified.handler penv now up req)) ->
     (JS.toUpperCase (Http.method req) = "GET" -> Http.optsBody call = None)
     /\ (JS.toUpperCase (Http.method req) <> "GET" ->
         JS.toUpperCase (Http.method req) <> "HEAD" ->
         exists sent, Http.optsBody call = Some sent))
  /\ (forall baseUrl prefix,
        In call (snd (Passthrough.proxyToBybit up req baseUrl prefix)) ->
        (JS.toUpperCase (Http.method req) = "GET"
         \/ JS.toUpperCase (Http.method req) = "HEAD" -> Http.optsBody call = None)
        /\ (JS.toUpperCase (Http.method req) <> "GET" ->
            JS.toUpperCase (Http.method req) <> "HEAD" ->
            (Http.optsBody call <> None
             <-> exists v, Http.body req = Some v
                           /\ (Json.typeofObject v || Json.truthy v) = true))).
Proof.
  split.
  - intros Hin.
    destruct (handler_calls _ _ _ _ _ Hin) as (_ & env & creds & _ & _ & ->).
    rewrite outboundCall_body, forwardArgs_method. split.
    + intros ->. reflexivity.
    + intros Hg _.
      destruct (String.eqb_spec (JS.toUpperCase (Http.method req)) "GET");
        [contradiction|]. eexists. reflexivity.
  - intros baseUrl prefix Hin. rewrite (passthrough_calls _ _ _ _ _ Hin), passthrough_body.
    unfold Passthrough.bodyFor. split.
    + intros [-> | ->]; reflexivity.
    + intros Hg Hh.
      destruct (String.eqb_spec (JS.toUpperCase (Http.method req)) "GET");
        [contradiction|].
      destruct (String.eqb_spec (JS.toUpperCase (Http.method req)) "HEAD");
        [contradiction|].
      cbn [negb andb].
      destruct (Http.body req) as [v|].
      * destruct (Json.typeofObject v) eqn:Eo, (Json.truthy v) eqn:Et; split;
          first [ intros _; exists v; rewrite Eo, Et; split; reflexivity
                | intros _; discriminate
                | intros H; congruence
                | intros (w & [= <-] & Hw); rewrite Eo, Et in Hw; discriminate ].
      * split; [intros H; congruence | intros (v & Hv & _); discriminate].
Qed.

Lemma body_follows_method_witness :
  (exists sent, Http.optsBody Sample.postOrderCall = Some sent)
  /\ Http.optsBody (Passthrough.outboundCall Sample.headMainnet
                      Passthrough.BYBIT_MAINNET "mainnet") = None.
Proof.
  split.
  - apply (proj1 (body_follows_method Sample.processEnv Sample.now Sample.upstream
                    Sample.postOrder Sample.postOrderCall)).
    + vm_compute. left. reflexivity.
    + vm_compute. discriminate.
    + vm_compute. discriminate.
  - apply (proj2 (body_follows_method Sample.processEnv Sample.now Sample.upstream
                    Sample.headMainnet
                    (Passthrough.outboundCall Sample.headMainnet
                       Passthrough.BYBIT_MAINNET "mainnet"))
                 Passthrough.BYBIT_MAINNET "mainnet").
    + vm_compute. left. reflexivity.
    + right. vm_compute. reflexivity.
Defined.

(** * Further properties *)

(** ** White space and the relayed content type *)

Lemma trimStart_blank (s : string) : Shape.blank s = true -> JS.trimStart s = "".
Proof.
  induction s as [|c s IH]; [reflexivity|]. cbn [Shape.blank JS.trimStart].
  destruct (JS.isWhiteSpace c); [exact IH | discriminate].
Qed.

Lemma trim_blank (s : string) : Shape.blank s = true -> JS.trim s = "".
Proof. intros H. unfold JS.trim. rewrite (trimStart_blank s H). reflexivity. Qed.

Lemma trimStart_decompose (s : string) :
  exists ws, Shape.blank ws = true /\ s = ws ++ JS.trimStart s.
Proof.
  induction s as [|c s (ws & Hb & Hs)]; [exists ""; split; reflexivity|].
  cbn [JS.trimStart]. destruct (JS.isWhiteSpace c) eqn:Ec.
  - exists (String c ws). cbn [Shape.blank]. rewrite Ec, Hb. split; [reflexivity|].
    rewrite append_cons. f_equal. exact Hs.
  - exists "". split; reflexivity.
Qed.

Lemma trimStart_skip (ws rest : string) (c : ascii) :
  Shape.blank ws = true -> JS.isWhiteSpace c = false ->
  JS.trimStart (ws ++ String c rest) = String c rest.
Proof.
  intros Hb Hc. induction ws as [|w ws IH].
  - change ("" ++ String c rest) with (String c rest). cbn [JS.trimStart]. rewrite Hc.
    reflexivity.
  - cbn [Shape.blank] in Hb. apply andb_prop in Hb as [Hw Hb].
    rewrite append_cons. cbn [JS.trimStart]. rewrite Hw. exact (IH Hb).
Qed.

(** Trimming the end never touches a leading brace. *)
Lemma startsWith_trimEnd_brace (t : string) :
  JS.startsWith (JS.trimEnd t) "{" = JS.startsWith t "{".
Proof.
  destruct t as [|c t]; [reflexivity|]. cbn [JS.trimEnd].
  destruct (Ascii.eqb_spec "{"%char c) as [<- | Hc].
  - destruct (JS.trimEnd t); reflexivity.
  - assert (H : forall x, JS.startsWith (String c x) "{" = false).
    { intros x. unfold JS.startsWith. cbn [JS.afterPrefix].
      destruct (Ascii.eqb_spec "{"%char c); [contradiction | reflexivity]. }
    rewrite H. destruct (JS.trimEnd t); [destruct (JS.isWhiteSpace c)|]; auto.
Qed.

(** X1. The relayed content type is application/json exactly when the
    upstream text, after leading white space, starts with an opening brace;
    in every other case (an empty text, an HTML page, a JSON array) it is
    text/html. *)
Theorem contentType_json_iff_leading_brace (text : string) :
  (Http.inferContentType text = "application/json"
   <-> exists ws rest, Shape.blank ws = true /\ text = ws ++ String "{" rest)
  /\ (Http.inferContentType text <> "application/json"
      -> Http.inferContentType text = "text/html").
Proof.
  unfold Http.inferContentType, JS.trim. rewrite startsWith_trimEnd_brace.
  split.
  - split.
    + destruct (JS.startsWith (JS.trimStart text) "{") eqn:E; [intros _ | discriminate].
      destruct (trimStart_decompose text) as (ws & Hb & Hs).
      unfold JS.startsWith in E. destruct (JS.trimStart text) as [|c r]; [discriminate|].
      cbn [JS.afterPrefix] in E.
      destruct (Ascii.eqb_spec "{"%char c) as [<- | _]; [|discriminate].
      exists ws, r. split; assumption.
    + intros (ws & rest & Hb & ->). rewrite (trimStart_skip ws rest "{" Hb eq_refl).
      reflexivity.
  - destruct (JS.startsWith (JS.trimStart text) "{"); [intros H; contradiction | reflexivity].
Qed.

(** ** The token gate under every configuration *)

(** X2. Whatever the configuration, a request whose X-PROXY-TOKEN header is
    absent, empty or white space only is never forwarded: it is answered 500
    (no token configured) or 401, and no outbound call is made. *)
Theorem gate_never_opens_without_token penv now up req :
  Shape.blank (JS.or (Http.header req "X-PROXY-TOKEN") "") = true ->
  snd (Unified.handler penv now up req) = []
  /\ (Http.status (fst (Unified.handler penv now up req)) = 500%Z
      \/ Http.status (fst (Unified.handler penv now up req)) = 401%Z).
Proof.
  intros Hb.
  destruct (String.eqb_spec (Unified.PROXY_TOKEN penv) "") as [Hno | Hset].
  - rewrite (handler_refused _ _ _ _ _ (mustAuth_no_token penv req Hno)).
    split; [reflexivity | left; reflexivity].
  - assert (Hm : Unified.mustAuth penv req
                 = Some (Http.json 401 (Http.errorObject "Unauthorized"))).
    { rewrite (mustAuth_token _ _ Hset). unfold Unified.presented.
      rewrite (trim_blank _ Hb).
      destruct (String.eqb_spec "" (Unified.PROXY_TOKEN penv)); [congruence | reflexivity]. }
    rewrite (handler_refused _ _ _ _ _ Hm). split; [reflexivity | right; reflexivity].
Qed.

Lemma gate_never_opens_without_token_witness :
  snd (Unified.handler Sample.processEnv Sample.now Sample.upstream Cases.noTokenRequest) = []
  /\ (Http.status (fst (Unified.handler Sample.processEnv Sample.now Sample.upstream
                          Cases.noTokenRequest)) = 500%Z
      \/ Http.status (fst (Unified.handler Sample.processEnv Sample.now Sample.upstream
                             Cases.noTokenRequest)) = 401%Z).
Proof.
  apply (gate_never_opens_without_token Sample.processEnv Sample.now Sample.upstream
           Cases.noTokenRequest).
  vm_compute. reflexivity.
Defined.

(** X3. A PROXY_TOKEN variable that is unset, empty or white space only
    counts as no token: every request, whatever it presents, is answered 500
    (PROXY_TOKEN not set) and nothing is forwarded. *)
Theorem blank_token_is_not_configured penv now up req :
  Shape.blank (JS.or (penv !! "PROXY_TOKEN") "") = true ->
  Unified.handler penv now up req
  = (Http.json 500 (Http.errorObject "PROXY_TOKEN not set"), []).
Proof.
  intros Hb. apply handler_refused, mustAuth_no_token.
  unfold Unified.PROXY_TOKEN. apply trim_blank. exact Hb.
Qed.

Lemma blank_token_is_not_configured_witness :
  Unified.handler Cases.blankTokenEnv Sample.now Sample.upstream Sample.getKline
  = (Http.json 500 (Http.errorObject "PROXY_TOKEN not set"), []).
Proof.
  apply (blank_token_is_not_configured Cases.blankTokenEnv Sample.now Sample.upstream
           Sample.getKline).
  vm_compute. reflexivity.
Defined.

(** ** The unified handler: when it forwards, where to and with which keys *)

Lemma pickEnv_return req env :
  Unified.pickEnv req = Http.Return env ->
  env = Unified.resolvedEnv req /\ (env = "demo" \/ env = "main").
Proof.
  rewrite pickEnv_resolved.
  destruct (String.eqb_spec (Unified.resolvedEnv req) "demo") as [Hd | Hd].
  - cbn. intros [= <-]. split; [reflexivity | left; exact Hd].
  - destruct (String.eqb_spec (Unified.resolvedEnv req) "main") as [Hm | Hm].
    + cbn. intros [= <-]. split; [reflexivity | right; exact Hm].
    + cbn. discriminate.
Qed.

Lemma credsFor_return penv env creds :
  Unified.credsFor penv env = Http.Return creds ->
  (env = "main"
   /\ creds = {| Unified.baseUrl := Unified.BYBIT_MAINNET;
                 Unified.credsApiKey := Unified.MAIN_KEY penv;
                 Unified.credsSecret := Unified.MAIN_SECRET penv |}
   /\ Unified.MAIN_KEY penv <> "" /\ Unified.MAIN_SECRET penv <> "")
  \/ (env <> "main"
      /\ creds = {| Unified.baseUrl := Unified.BYBIT_DEMO;
                    Unified.credsApiKey := Unified.DEMO_KEY penv;
                    Unified.credsSecret := Unified.DEMO_SECRET penv |}
      /\ Unified.DEMO_KEY penv <> "" /\ Unified.DEMO_SECRET penv <> "").
Proof.
  unfold Unified.credsFor.
  destruct (String.eqb_spec env "main") as [He | He].
  - destruct (JS.truthy (Unified.MAIN_KEY penv)) eqn:Ek; [|discriminate].
    destruct (JS.truthy (Unified.MAIN_SECRET penv)) eqn:Es; [|discriminate].
    cbn. intros [= <-]. left. apply truthy_true in Ek, Es. repeat split; assumption.
  - destruct (JS.truthy (Unified.DEMO_KEY penv)) eqn:Ek; [|discriminate].
    destruct (JS.truthy (Unified.DEMO_SECRET penv)) eqn:Es; [|discriminate].
    cbn. intros [= <-]. right. apply truthy_true in Ek, Es. repeat split; assumption.
Qed.



Lemma pickEnv_of_resolved req env :
  Unified.resolvedEnv req = env -> env = "demo" \/ env = "main" ->
  Unified.pickEnv req = Http.Return env.
Proof.
  intros <- [H | H]; rewrite pickEnv_resolved, H; reflexivity.
Qed.



(** X5. A request that passed the gate and selects an environment whose key
    or secret is unset or blank is answered 500 with the message naming the
    missing keys, and nothing is forwarded: the unified handler never sends
    an unsigned call. *)
Theorem missing_keys_are_refused penv now up req :
  Unified.mustAuth penv req = None ->
  (Unified.resolvedEnv req = "main" ->
   Unified.MAIN_KEY penv = "" \/ Unified.MAIN_SECRET penv = "" ->
   Unified.handler penv now up req
   = (Http.json 500 (Http.errorObject "Mainnet keys missing in env"), []))
  /\ (Unified.resolvedEnv req = "demo" ->
      Unified.DEMO_KEY penv = "" \/ Unified.DEMO_SECRET penv = "" ->
      Unified.handler penv now up req
      = (Http.json 500 (Http.errorObject "Demo keys missing in env"), [])).
Proof.
  intros Ha. split; intros He Hmiss.
  - assert (Hc : Unified.credsFor penv "main"
                 = Http.Throw (Http.newError "Mainnet keys missing in env")).
    { unfold Unified.credsFor. cbn [String.eqb Ascii.eqb Bool.eqb].
      destruct Hmiss as [-> | ->]; [reflexivity|].
      destruct (JS.truthy (Unified.MAIN_KEY penv)); reflexivity. }
    unfold Unified.handler.
    rewrite Ha, (pickEnv_of_resolved _ _ He (or_intror eq_refl)).
    cbn [Http.lift Http.bind]. rewrite Hc. reflexivity.
  - assert (Hc : Unified.credsFor penv "demo"
                 = Http.Throw (Http.newError "Demo keys missing in env")).
    { unfold Unified.credsFor. cbn [String.eqb Ascii.eqb Bool.eqb].
      destruct Hmiss as [-> | ->]; [reflexivity|].
      destruct (JS.truthy (Unified.DEMO_KEY penv)); reflexivity. }
    unfold Unified.handler.
    rewrite Ha, (pickEnv_of_resolved _ _ He (or_introl eq_refl)).
    cbn [Http.lift Http.bind]. rewrite Hc. reflexivity.
Qed.

Lemma missing_keys_are_refused_witness :
  Unified.handler Cases.keyOnlyEnv Sample.now Sample.upstream Sample.postOrder
  = (Http.json 500 (Http.errorObject "Mainnet keys missing in env"), []).
Proof.
  apply (proj1 (missing_keys_are_refused Cases.keyOnlyEnv Sample.now Sample.upstream
                  Sample.postOrder eq_refl)).
  - vm_compute. reflexivity.
  - right. vm_compute. reflexivity.
Defined.

Lemma outboundCall_apiKey penv now a :
  Http.optsHeaders (Unified.outboundCall penv now a) !! "X-BAPI-API-KEY"
  = Some (Unified.argApiKey a).
Proof.
  unfold Unified.outboundCall. cbn [Http.optsHeaders].
  do 4 (rewrite lookup_insert_ne by discriminate). apply lookup_insert_eq.
Qed.

Lemma outboundCall_timestamp penv now a :
  Http.optsHeaders (Unified.outboundCall penv now a) !! "X-BAPI-TIMESTAMP"
  = Some (JS.numberToString now).
Proof.
  unfold Unified.outboundCall. cbn [Http.optsHeaders].
  do 3 (rewrite lookup_insert_ne by discriminate). apply lookup_insert_eq.
Qed.

Lemma outboundCall_recvWindow penv now a :
  Http.optsHeaders (Unified.outboundCall penv now a) !! "X-BAPI-RECV-WINDOW"
  = Some (Unified.RECV_WINDOW penv).
Proof.
  unfold Unified.outboundCall. cbn [Http.optsHeaders].
  rewrite lookup_insert_ne by discriminate. apply lookup_insert_eq.
Qed.

Lemma forwardArgs_creds creds req :
  Unified.argApiKey (Unified.forwardArgs creds req) = Unified.credsApiKey creds
  /\ Unified.argSecret (Unified.forwardArgs creds req) = Unified.credsSecret creds.
Proof.
  unfold Unified.forwardArgs. cbv zeta. destruct (String.eqb _ "GET"); split; reflexivity.
Qed.

(** *** The host of the URL the handlers build *)

Lemma startsWith_slash (path : string) :
  JS.startsWith path "/" = true -> exists rest, path = String "/" rest.
Proof.
  unfold JS.startsWith. destruct path as [|c rest]; [discriminate|].
  cbn [JS.afterPrefix]. destruct (Ascii.eqb_spec "/"%char c) as [<- | _]; [|discriminate].
  intros _. exists rest. reflexivity.
Qed.

(** The text the signing handlers put after the base URL starts with the
    slash of the path when the target, without the route prefix, starts with
    one. *)
Lemma built_url_after_base (path tail : string) :
  JS.startsWith path "/" = true ->
  exists rest, JS.interpolate (JS.split "?" path !! 0%nat) ++ tail = String "/" rest.
Proof.
  intros Hp. destruct (startsWith_slash path Hp) as (r & ->).
  rewrite split_first. cbn [Spec.cutTarget Ascii.eqb Bool.eqb].
  destruct (Spec.cutTarget r) as [p q]. cbn [fst JS.interpolate].
  rewrite append_cons. eexists. reflexivity.
Qed.

Lemma unified_url creds req :
  Unified.argUrl (Unified.forwardArgs creds req)
  = Unified.baseUrl creds
    ++ JS.interpolate (JS.split "?" (JS.replaceAnchored "/bybit" "" (Http.originalUrl req))
                         !! 0%nat)
    ++ (if JS.truthy (default "" (JS.split "?" (JS.replaceAnchored "/bybit" ""
                                                  (Http.originalUrl req)) !! 1%nat))
        then "?" ++ default "" (JS.split "?" (JS.replaceAnchored "/bybit" ""
                                                (Http.originalUrl req)) !! 1%nat)
        else "").
Proof.
  unfold Unified.forwardArgs. cbv zeta. destruct (String.eqb _ "GET"); reflexivity.
Qed.

(** An absolute-form target is appended to the base URL as it is, and the
    authority of the result is no longer the upstream's host name. *)
Lemma absolute_form_target_changes_authority :
  map (fun call => Url.authority (Http.url call))
      (snd (Unified.handler Sample.processEnv Sample.now Sample.upstream Cases.absoluteForm))
  = [Some "api-demo-testnet.bybit.comhttp:"].
Proof. vm_compute. reflexivity. Qed.

(** X6. Keys never cross environments.  For a request whose target, after
    removal of the route prefix, starts with a slash (every origin-form
    target the route matches), a call made for main has the authority
    api.bybit.com and carries the mainnet key, signed with the mainnet secret;
    a call made for demo has the authority api-demo-testnet.bybit.com with the
    demo key and secret; there is no third case. *)
Theorem credentials_follow_environment penv now up req call :
  In call (snd (Unified.handler penv now up req)) ->
  JS.startsWith (JS.replaceAnchored "/bybit" "" (Http.originalUrl req)) "/" = true ->
  (Unified.resolvedEnv req = "main"
   /\ Url.authority (Http.url call) = Some "api.bybit.com"
   /\ Http.optsHeaders call !! "X-BAPI-API-KEY" = Some (Unified.MAIN_KEY penv)
   /\ exists payload,
        Http.optsHeaders call !! "X-BAPI-SIGN"
        = Some (Unified.signBybit
                  {| Unified.timestamp := JS.numberToString now;
                     Unified.apiKey := Unified.MAIN_KEY penv;
                     Unified.secret := Unified.MAIN_SECRET penv;
                     Unified.recvWindow := Unified.RECV_WINDOW penv;
                     Unified.payload := payload |}))
  \/ (Unified.resolvedEnv req = "demo"
      /\ Url.authority (Http.url call) = Some "api-demo-testnet.bybit.com"
      /\ Http.optsHeaders call !! "X-BAPI-API-KEY" = Some (Unified.DEMO_KEY penv)
      /\ exists payload,
           Http.optsHeaders call !! "X-BAPI-SIGN"
           = Some (Unified.signBybit
                     {| Unified.timestamp := JS.numberToString now;
                        Unified.apiKey := Unified.DEMO_KEY penv;
                        Unified.secret := Unified.DEMO_SECRET penv;
                        Unified.recvWindow := Unified.RECV_WINDOW penv;
                        Unified.payload := payload |})).
Proof.
  intros Hin Hslash.
  destruct (handler_calls _ _ _ _ _ Hin) as (_ & env & creds & Hp & Hc & ->).
  destruct (pickEnv_return _ _ Hp) as [-> Henv].
  destruct (forwardArgs_creds creds req) as [Hk Hs].
  rewrite outboundCall_apiKey, outboundCall_signature, Hk, Hs.
  assert (Hurl : Http.url (Unified.outboundCall penv now (Unified.forwardArgs creds req))
                 = Unified.argUrl (Unified.forwardArgs creds req)) by reflexivity.
  rewrite Hurl, unified_url.
  destruct (built_url_after_base _
              (if JS.truthy (default "" (JS.split "?" (JS.replaceAnchored "/bybit" ""
                                                         (Http.originalUrl req)) !! 1%nat))
               then "?" ++ default "" (JS.split "?" (JS.replaceAnchored "/bybit" ""
                                                       (Http.originalUrl req)) !! 1%nat)
               else "") Hslash) as (rest & ->).
  destruct (credsFor_return _ _ _ Hc) as [(He & -> & _) | (He & -> & _)].
  - left. split; [exact He|]. split; [reflexivity|].
    split; [reflexivity|]. eexists. reflexivity.
  - right. destruct Henv as [Hd | Hm]; [|contradiction].
    split; [exact Hd|]. split; [reflexivity|].
    split; [reflexivity|]. eexists. reflexivity.
Qed.

Lemma credentials_follow_environment_witness :
  (Unified.resolvedEnv Sample.postOrder = "main"
   /\ Url.authority (Http.url Sample.postOrderCall) = Some "api.bybit.com"
   /\ Http.optsHeaders Sample.postOrderCall !! "X-BAPI-API-KEY"
      = Some (Unified.MAIN_KEY Sample.processEnv)
   /\ exists payload,
        Http.optsHeaders Sample.postOrderCall !! "X-BAPI-SIGN"
        = Some (Unified.signBybit
                  {| Unified.timestamp := JS.numberToString Sample.now;
                     Unified.apiKey := Unified.MAIN_KEY Sample.processEnv;
                     Unified.secret := Unified.MAIN_SECRET Sample.processEnv;
                     Unified.recvWindow := Unified.RECV_WINDOW Sample.processEnv;
                     Unified.payload := payload |}))
  \/ (Unified.resolvedEnv Sample.postOrder = "demo"
      /\ Url.authority (Http.url Sample.postOrderCall) = Some "api-demo-testnet.bybit.com"
      /\ Http.optsHeaders Sample.postOrderCall !! "X-BAPI-API-KEY"
         = Some (Unified.DEMO_KEY Sample.processEnv)
      /\ exists payload,
           Http.optsHeaders Sample.postOrderCall !! "X-BAPI-SIGN"
           = Some (Unified.signBybit
                     {| Unified.timestamp := JS.numberToString Sample.now;
                        Unified.apiKey := Unified.DEMO_KEY Sample.processEnv;
                        Unified.secret := Unified.DEMO_SECRET Sample.processEnv;
                        Unified.recvWindow := Unified.RECV_WINDOW Sample.processEnv;
                        Unified.payload := payload |})).
Proof.
  apply (credentials_follow_environment Sample.processEnv Sample.now Sample.upstream
           Sample.postOrder Sample.postOrderCall).
  - vm_compute. left. reflexivity.
  - vm_compute. reflexivity.
Defined.

(** ** The signature covers what is sent *)

Lemma cutTarget_app (a b : string) :
  snd (Spec.cutTarget a) = None ->
  Spec.cutTarget (a ++ b) = (a ++ fst (Spec.cutTarget b), snd (Spec.cutTarget b)).
Proof.
  induction a as [|c a IH]; intros Ha.
  - change ("" ++ b) with b. destruct (Spec.cutTarget b); reflexivity.
  - rewrite !append_cons. cbn [Spec.cutTarget] in *.
    destruct (Ascii.eqb c "?"); [discriminate|].
    destruct (Spec.cutTarget a) as [p q]. cbn [snd] in Ha.
    rewrite (IH Ha). reflexivity.
Qed.

Lemma fst_cutTarget_no_query (s : string) :
  snd (Spec.cutTarget (fst (Spec.cutTarget s))) = None.
Proof.
  induction s as [|c s IH]; [reflexivity|].
  cbn [Spec.cutTarget]. destruct (Ascii.eqb c "?") eqn:Ec; [reflexivity|].
  destruct (Spec.cutTarget s) as [p q]. cbn [fst] in *.
  cbn [Spec.cutTarget]. rewrite Ec.
  destruct (Spec.cutTarget p) as [pp pq]. exact IH.
Qed.

Lemma no_query_suffix (a b : string) :
  snd (Spec.cutTarget (a ++ b)) = None -> snd (Spec.cutTarget b) = None.
Proof.
  induction a as [|c a IH]; [intros H; exact H|].
  rewrite append_cons. cbn [Spec.cutTarget].
  destruct (Ascii.eqb c "?"); [discriminate|].
  destruct (Spec.cutTarget (a ++ b)) as [p q]. cbn [snd] in *. exact IH.
Qed.

Lemma no_query_replaceAnchored (p s : string) :
  snd (Spec.cutTarget s) = None ->
  snd (Spec.cutTarget (JS.replaceAnchored p "" s)) = None.
Proof.
  intros Hs. unfold JS.replaceAnchored.
  destruct (JS.afterPrefix p s) as [rest|] eqn:E; [|exact Hs].
  change ("" ++ rest) with rest. apply (no_query_suffix p rest).
  rewrite <- (afterPrefix_spec _ _ _ E). exact Hs.
Qed.

(** The query string of the URL the handler builds is the [qs] it signs for
    a GET. *)
Lemma getPayload_of_url (base target : string) :
  snd (Spec.cutTarget base) = None ->
  Spec.getPayload
    (base ++ JS.replaceAnchored "/bybit" "" (fst (Spec.cutTarget target))
          ++ match snd (Spec.cutTarget target) with
             | Some q => if JS.truthy (fst (Spec.cutTarget q))
                         then "?" ++ fst (Spec.cutTarget q) else ""
             | None => ""
             end)
  = match snd (Spec.cutTarget target) with
    | Some q => fst (Spec.cutTarget q)
    | None => ""
    end.
Proof.
  intros Hb. unfold Spec.getPayload.
  pose proof (no_query_replaceAnchored "/bybit" _ (fst_cutTarget_no_query target)) as Hp.
  rewrite (cutTarget_app base _ Hb). cbn [snd].
  rewrite (cutTarget_app _ _ Hp). cbn [snd].
  destruct (snd (Spec.cutTarget target)) as [q|]; [|reflexivity].
  destruct (fst (Spec.cutTarget q)) as [|c r] eqn:Eq; [reflexivity|].
  cbn [JS.truthy]. reflexivity.
Qed.

(** X7. The signature can be checked from the call alone.  For every call
    the unified handler makes, the X-BAPI-SIGN header is the signature, under
    the secret of the resolved environment (the mainnet secret for main, the
    demo secret for demo), of the time stamp, the key of that environment and
    the receive window sent in the headers, followed by the payload as the
    call carries it: the body when the call has one, and otherwise the text
    after the first question mark of the URL passed to fetch. *)
Theorem signature_matches_sent_request penv now up req call :
  In call (snd (Unified.handler penv now up req)) ->
  exists ts key window secret,
    Http.optsHeaders call !! "X-BAPI-TIMESTAMP" = Some ts
    /\ Http.optsHeaders call !! "X-BAPI-API-KEY" = Some key
    /\ Http.optsHeaders call !! "X-BAPI-RECV-WINDOW" = Some window
    /\ Http.optsHeaders call !! "X-BAPI-SIGN"
       = Some (Unified.signBybit
                 {| Unified.timestamp := ts; Unified.apiKey := key;
                    Unified.secret := secret; Unified.recvWindow := window;
                    Unified.payload := Shape.sentPayload call |})
    /\ ((Unified.resolvedEnv req = "main"
         /\ key = Unified.MAIN_KEY penv /\ secret = Unified.MAIN_SECRET penv)
        \/ (Unified.resolvedEnv req = "demo"
            /\ key = Unified.DEMO_KEY penv /\ secret = Unified.DEMO_SECRET penv)).
Proof.
  intros Hin.
  destruct (handler_calls _ _ _ _ _ Hin) as (_ & env & creds & Hp & Hc & ->).
  destruct (pickEnv_return _ _ Hp) as [-> Henv].
  destruct (forwardArgs_creds creds req) as [Hk Hs].
  exists (JS.numberToString now), (Unified.credsApiKey creds),
         (Unified.RECV_WINDOW penv), (Unified.credsSecret creds).
  rewrite outboundCall_timestamp, outboundCall_apiKey, outboundCall_recvWindow,
    outboundCall_signature, Hk, Hs.
  split; [reflexivity|]. split; [reflexivity|]. split; [reflexivity|].
  assert (Hbase : snd (Spec.cutTarget (Unified.baseUrl creds)) = None
                  /\ ((Unified.resolvedEnv req = "main"
                       /\ Unified.credsApiKey creds = Unified.MAIN_KEY penv
                       /\ Unified.credsSecret creds = Unified.MAIN_SECRET penv)
                      \/ (Unified.resolvedEnv req = "demo"
                          /\ Unified.credsApiKey creds = Unified.DEMO_KEY penv
                          /\ Unified.credsSecret creds = Unified.DEMO_SECRET penv))).
  { destruct (credsFor_return _ _ _ Hc) as [(He & -> & _) | (He & -> & _)].
    - split; [reflexivity|]. left. repeat split. exact He.
    - split; [reflexivity|]. right. destruct Henv as [Hd | Hm]; [|contradiction].
      repeat split. exact Hd. }
  destruct Hbase as [Hbase Hsecret]. split; [|exact Hsecret].
  do 2 f_equal. unfold Shape.sentPayload.
  rewrite outboundCall_body, forwardArgs_method.
  destruct (String.eqb_spec (JS.toUpperCase (Http.method req)) "GET") as [Hget | Hnot].
  - assert (Hurl : Http.url (Unified.outboundCall penv now (Unified.forwardArgs creds req))
                   = Unified.argUrl (Unified.forwardArgs creds req)) by reflexivity.
    rewrite Hurl, forwardArgs_url, (getPayload_of_url _ _ Hbase).
    f_equal. apply get_payload_first_segment. exact Hget.
  - f_equal. apply (forwardArgs_not_get creds req Hnot).
Qed.

Lemma signature_matches_sent_request_witness :
  exists ts key window secret,
    Http.optsHeaders Sample.postOrderCall !! "X-BAPI-TIMESTAMP" = Some ts
    /\ Http.optsHeaders Sample.postOrderCall !! "X-BAPI-API-KEY" = Some key
    /\ Http.optsHeaders Sample.postOrderCall !! "X-BAPI-RECV-WINDOW" = Some window
    /\ Http.optsHeaders Sample.postOrderCall !! "X-BAPI-SIGN"
       = Some (Unified.signBybit
                 {| Unified.timestamp := ts; Unified.apiKey := key;
                    Unified.secret := secret; Unified.recvWindow := window;
                    Unified.payload := Shape.sentPayload Sample.postOrderCall |})
    /\ ((Unified.resolvedEnv Sample.postOrder = "main"
         /\ key = Unified.MAIN_KEY Sample.processEnv
         /\ secret = Unified.MAIN_SECRET Sample.processEnv)
        \/ (Unified.resolvedEnv Sample.postOrder = "demo"
            /\ key = Unified.DEMO_KEY Sample.processEnv
            /\ secret = Unified.DEMO_SECRET Sample.processEnv)).
Proof.
  apply (signature_matches_sent_request Sample.processEnv Sample.now Sample.upstream
           Sample.postOrder Sample.postOrderCall).
  vm_compute. left. reflexivity.
Defined.

(** ** Relaying the upstream's answer *)

Lemma errorText_message (e : Http.Error) : Http.errorText e = Shape.errorMessage e.
Proof.
  unfold Http.errorText, Shape.errorMessage, Http.errorToString, JS.or.
  destruct (JS.truthy (Http.message e)) eqn:Em; [reflexivity|].
  destruct (JS.truthy (Http.name e)) eqn:En; cbn; [reflexivity|].
  apply truthy_false in Em, En. congruence.
Qed.

Lemma handler_outcome penv now up req call :
  In call (snd (Unified.handler penv now up req)) ->
  Unified.handler penv now up req
  = match up call with
    | Http.Return r =>
        (Http.send (Http.upstreamStatus r) (Http.inferContentType (Http.text r))
                   (Http.text r), [call])
    | Http.Throw e => (Http.json 500 (Http.errorObject (Http.errorText e)), [call])
    end.
Proof.
  intros Hin.
  destruct (handler_calls _ _ _ _ _ Hin) as (Ha & env & creds & Hp & Hc & ->).
  unfold Unified.handler. rewrite Ha, Hp. cbn [Http.lift Http.bind]. rewrite Hc.
  unfold Unified.forwardToBybit, Http.fetch. cbn [Http.bind Http.ret].
  destruct (up _); reflexivity.
Qed.

(** X8. Whatever the upstream answers is relayed: the response has the
    upstream's status code, also when it is an error status, and the
    upstream's text unchanged; only the content type is inferred from the
    text. *)
Theorem upstream_answer_is_relayed penv now up req call r :
  In call (snd (Unified.handler penv now up req)) ->
  up call = Http.Return r ->
  Http.status (fst (Unified.handler penv now up req)) = Http.upstreamStatus r
  /\ Http.content (fst (Unified.handler penv now up req)) = Http.text r
  /\ Http.contentType (fst (Unified.handler penv now up req))
     = Http.inferContentType (Http.text r).
Proof.
  intros Hin Hup. rewrite (handler_outcome _ _ _ _ _ Hin), Hup. repeat split.
Qed.

Lemma upstream_answer_is_relayed_witness :
  Http.status (fst (Unified.handler Sample.processEnv Sample.now Cases.blockedUpstream
                      Sample.postOrder)) = 403%Z
  /\ Http.content (fst (Unified.handler Sample.processEnv Sample.now Cases.blockedUpstream
                          Sample.postOrder)) = "<html>blocked</html>"
  /\ Http.contentType (fst (Unified.handler Sample.processEnv Sample.now
                              Cases.blockedUpstream Sample.postOrder))
     = Http.inferContentType "<html>blocked</html>".
Proof.
  apply (upstream_answer_is_relayed Sample.processEnv Sample.now Cases.blockedUpstream
           Sample.postOrder Sample.postOrderCall
           {| Http.upstreamStatus := 403; Http.text := "<html>blocked</html>" |}).
  - vm_compute. left. reflexivity.
  - reflexivity.
Defined.

(** X9. When the outbound call fails, the request is answered 500 with a
    JSON object whose error field is the failure's message, or its name when
    the message is empty; the call was attempted once and is not repeated. *)
Theorem network_failure_is_500 penv now up req call e :
  In call (snd (Unified.handler penv now up req)) ->
  up call = Http.Throw e ->
  Unified.handler penv now up req
  = (Http.json 500 (Http.errorObject (Shape.errorMessage e)), [call]).
Proof.
  intros Hin Hup. rewrite (handler_outcome _ _ _ _ _ Hin), Hup, errorText_message.
  reflexivity.
Qed.

Lemma network_failure_is_500_witness :
  Unified.handler Sample.processEnv Sample.now Cases.deadUpstream Sample.postOrder
  = (Http.json 500 (Http.errorObject "fetch failed"), [Sample.postOrderCall]).
Proof.
  apply (network_failure_is_500 Sample.processEnv Sample.now Cases.deadUpstream
           Sample.postOrder Sample.postOrderCall
           {| Http.name := "TypeError"; Http.message := "fetch failed" |}).
  - vm_compute. left. reflexivity.
  - reflexivity.
Defined.

(** ** The receive window *)

(** X10. The receive window sent with every call is 5000 when
    BYBIT_RECV_WINDOW is unset or empty; a set value is sent trimmed, so a
    value of white space only sends an empty receive window, not the
    default. *)
Theorem recv_window_default penv now up req call :
  In call (snd (Unified.handler penv now up req)) ->
  (penv !! "BYBIT_RECV_WINDOW" = None \/ penv !! "BYBIT_RECV_WINDOW" = Some "" ->
   Http.optsHeaders call !! "X-BAPI-RECV-WINDOW" = Some "5000")
  /\ (forall v, penv !! "BYBIT_RECV_WINDOW" = Some v -> v <> "" ->
      Http.optsHeaders call !! "X-BAPI-RECV-WINDOW" = Some (JS.trim v)
      /\ (Shape.blank v = true ->
          Http.optsHeaders call !! "X-BAPI-RECV-WINDOW" = Some "")).
Proof.
  intros Hin.
  destruct (handler_calls _ _ _ _ _ Hin) as (_ & env & creds & _ & _ & ->).
  rewrite outboundCall_recvWindow. unfold Unified.RECV_WINDOW. split.
  - intros [-> | ->]; reflexivity.
  - intros v -> Hv. rewrite (or_some_truthy v "5000" Hv).
    split; [reflexivity|]. intros Hb. rewrite (trim_blank v Hb). reflexivity.
Qed.

Lemma recv_window_default_witness :
  Http.optsHeaders Sample.postOrderCall !! "X-BAPI-RECV-WINDOW" = Some "5000"
  /\ Http.optsHeaders
       (Unified.outboundCall Cases.blankWindowEnv Sample.now
          (Unified.forwardArgs Sample.mainCreds Sample.postOrder))
       !! "X-BAPI-RECV-WINDOW" = Some "".
Proof.
  split.
  - apply (proj1 (recv_window_default Sample.processEnv Sample.now Sample.upstream
                    Sample.postOrder Sample.postOrderCall
                    ltac:(vm_compute; left; reflexivity))).
    left. vm_compute. reflexivity.
  - apply (proj2 (recv_window_default Cases.blankWindowEnv Sample.now Sample.upstream
                    Sample.postOrder
                    (Unified.outboundCall Cases.blankWindowEnv Sample.now
                       (Unified.forwardArgs Sample.mainCreds Sample.postOrder))
                    ltac:(vm_compute; left; reflexivity)) "  ").
    + vm_compute. reflexivity.
    + discriminate.
    + reflexivity.
Defined.

(** ** Environment parameters that are not one string *)

Lemma contains_app (c : ascii) (a b : string) :
  Shape.contains c (a ++ b) = Shape.contains c a || Shape.contains c b.
Proof.
  induction a as [|d a IH]; [reflexivity|].
  rewrite append_cons. cbn [Shape.contains]. rewrite IH. apply orb_assoc.
Qed.

Lemma contains_trimStart (c : ascii) (s : string) :
  JS.isWhiteSpace c = false ->
  Shape.contains c (JS.trimStart s) = Shape.contains c s.
Proof.
  intros Hc. induction s as [|d s IH]; [reflexivity|].
  cbn [JS.trimStart]. destruct (JS.isWhiteSpace d) eqn:Ed; [|reflexivity].
  cbn [Shape.contains]. rewrite IH.
  destruct (Ascii.eqb_spec c d) as [-> | _]; [congruence | reflexivity].
Qed.

Lemma contains_trimEnd (c : ascii) (s : string) :
  JS.isWhiteSpace c = false ->
  Shape.contains c (JS.trimEnd s) = Shape.contains c s.
Proof.
  intros Hc. induction s as [|d s IH]; [reflexivity|].
  cbn [JS.trimEnd Shape.contains]. rewrite <- IH.
  destruct (JS.trimEnd s) as [|x r].
  - destruct (JS.isWhiteSpace d) eqn:Ed; [|reflexivity].
    cbn [Shape.contains].
    destruct (Ascii.eqb_spec c d) as [-> | _]; [congruence | reflexivity].
  - reflexivity.
Qed.

Lemma comma_lowerChar (d : ascii) :
  Ascii.eqb "," (JS.lowerChar d) = Ascii.eqb "," d.
Proof. destruct d as [[] [] [] [] [] [] [] []]; reflexivity. Qed.

Lemma contains_comma_toLowerCase (s : string) :
  Shape.contains "," (JS.toLowerCase s) = Shape.contains "," s.
Proof.
  induction s as [|d s IH]; [reflexivity|].
  cbn [JS.toLowerCase Shape.contains]. rewrite comma_lowerChar, IH. reflexivity.
Qed.

Lemma contains_comma_join (x y : string) (rest : list string) :
  Shape.contains "," (Json.join "," (x :: y :: rest)) = true.
Proof.
  cbn [Json.join]. rewrite contains_app.
  change ("," ++ Json.join "," (y :: rest)) with (String "," (Json.join "," (y :: rest))).
  cbn [Shape.contains Ascii.eqb Bool.eqb]. apply orb_true_r.
Qed.

(** X11. With no X-BYBIT-ENV header, an env query parameter given more than
    once is rejected even when every occurrence is a valid name: the values
    are joined with commas before the comparison, the selector throws, and
    nothing is forwarded. *)
Theorem repeated_env_parameter_is_rejected penv now up req items :
  Unified.envHeader req = "" ->
  Http.query req !! "env" = Some (Json.JArr items) ->
  (2 <= length items)%nat ->
  Unified.pickEnv req = Http.Throw (Unified.invalidEnv (Unified.resolvedEnv req))
  /\ snd (Unified.handler penv now up req) = [].
Proof.
  intros Hh Hq Hlen.
  assert (Hc : Shape.contains "," (Unified.envQuery req) = true).
  { unfold Unified.envQuery. rewrite Hq. cbn [Json.truthy Json.toString].
    rewrite contains_comma_toLowerCase. unfold JS.trim.
    rewrite contains_trimEnd, contains_trimStart by reflexivity.
    destruct items as [|x [|y rest]]; cbn in Hlen; try lia.
    cbn [map]. apply contains_comma_join. }
  assert (Hr : Unified.resolvedEnv req = Unified.envQuery req).
  { unfold Unified.resolvedEnv. cbv zeta. rewrite Hh, or_some_empty.
    apply or_some_truthy. intros E. rewrite E in Hc. discriminate. }
  assert (Hp : Unified.pickEnv req
               = Http.Throw (Unified.invalidEnv (Unified.resolvedEnv req))).
  { rewrite pickEnv_resolved, Hr.
    destruct (String.eqb_spec (Unified.envQuery req) "demo") as [E | _];
      [rewrite E in Hc; discriminate|].
    destruct (String.eqb_spec (Unified.envQuery req) "main") as [E | _];
      [rewrite E in Hc; discriminate|].
    reflexivity. }
  split; [exact Hp|].
  unfold Unified.handler. destruct (Unified.mustAuth penv req); [reflexivity|].
  rewrite Hp. reflexivity.
Qed.

Lemma repeated_env_parameter_is_rejected_witness :
  Unified.pickEnv Cases.repeatedEnv
    = Http.Throw (Unified.invalidEnv (Unified.resolvedEnv Cases.repeatedEnv))
  /\ snd (Unified.handler Sample.processEnv Sample.now Sample.upstream Cases.repeatedEnv)
     = [].
Proof.
  apply (repeated_env_parameter_is_rejected Sample.processEnv Sample.now Sample.upstream
           Cases.repeatedEnv [Json.JStr "main"; Json.JStr "main"]).
  - vm_compute. reflexivity.
  - vm_compute. reflexivity.
  - cbn. lia.
Defined.

(** ** The optional-credentials revision *)

Lemma permissive_trace penv now up prefix env req :
  snd (Permissive.routeHandler penv now up prefix env req)
  = [Permissive.outboundCall penv now
       (Permissive.forwardArgs prefix (Permissive.credsFor penv env) req)].
Proof.
  unfold Permissive.routeHandler, Permissive.mustAuth, Permissive.forwardToBybit, Http.fetch.
  cbn [Http.bind Http.ret]. destruct (up _); reflexivity.
Qed.

Lemma permissive_forwardArgs_fields prefix creds req :
  Permissive.argApiKey (Permissive.forwardArgs prefix creds req) = Permissive.credsApiKey creds
  /\ Permissive.argSecret (Permissive.forwardArgs prefix creds req)
     = Permissive.credsSecret creds
  /\ exists rest,
       Permissive.argUrl (Permissive.forwardArgs prefix creds req)
       = Permissive.baseUrl creds ++ rest.
Proof.
  unfold Permissive.forwardArgs. cbv zeta.
  destruct (String.eqb _ "GET"); (split; [reflexivity|]); (split; [reflexivity|]);
    eexists; reflexivity.
Qed.

Lemma permissive_url prefix creds req :
  Permissive.argUrl (Permissive.forwardArgs prefix creds req)
  = Permissive.baseUrl creds
    ++ JS.interpolate (JS.split "?" (JS.replaceAnchored prefix "" (Http.originalUrl req))
                         !! 0%nat)
    ++ (if JS.truthy (default "" (JS.split "?" (JS.replaceAnchored prefix ""
                                                  (Http.originalUrl req)) !! 1%nat))
        then "?" ++ default "" (JS.split "?" (JS.replaceAnchored prefix ""
                                                (Http.originalUrl req)) !! 1%nat)
        else "").
Proof.
  unfold Permissive.forwardArgs. cbv zeta. destruct (String.eqb _ "GET"); reflexivity.
Qed.

Lemma permissive_authority penv now prefix env req :
  JS.startsWith (JS.replaceAnchored prefix "" (Http.originalUrl req)) "/" = true ->
  exists rest,
    Http.url (Permissive.outboundCall penv now
                (Permissive.forwardArgs prefix (Permissive.credsFor penv env) req))
    = Permissive.baseUrl (Permissive.credsFor penv env) ++ String "/" rest.
Proof.
  intros Hslash.
  assert (Hurl : Http.url (Permissive.outboundCall penv now
                             (Permissive.forwardArgs prefix (Permissive.credsFor penv env) req))
                 = Permissive.argUrl
                     (Permissive.forwardArgs prefix (Permissive.credsFor penv env) req))
    by reflexivity.
  rewrite Hurl, permissive_url.
  destruct (built_url_after_base _
              (if JS.truthy (default "" (JS.split "?" (JS.replaceAnchored prefix ""
                                                         (Http.originalUrl req)) !! 1%nat))
               then "?" ++ default "" (JS.split "?" (JS.replaceAnchored prefix ""
                                                       (Http.originalUrl req)) !! 1%nat)
               else "") Hslash) as (rest & ->).
  exists rest. reflexivity.
Qed.

(** X12. The routes of the optional-credentials revision have no token gate
    and no key check: each handler passes every request to fetch exactly
    once, whatever keys are configured.  When the target, after removal of the
    route prefix, starts with a slash (every origin-form target the route
    matches), the authority of the URL is api.bybit.com on the mainnet route
    and api-demo.bybit.com on the testnet route. *)
Theorem permissive_routes_always_forward penv now up req :
  (exists call,
     snd (Permissive.mainnetHandler penv now up req) = [call]
     /\ (JS.startsWith (JS.replaceAnchored "/mainnet" "" (Http.originalUrl req)) "/" = true ->
         Url.authority (Http.url call) = Some "api.bybit.com"))
  /\ (exists call,
        snd (Permissive.testnetHandler penv now up req) = [call]
        /\ (JS.startsWith (JS.replaceAnchored "/testnet" "" (Http.originalUrl req)) "/"
            = true ->
            Url.authority (Http.url call) = Some "api-demo.bybit.com")).
Proof.
  unfold Permissive.mainnetHandler, Permissive.testnetHandler.
  rewrite !permissive_trace. split.
  - eexists. split; [reflexivity|]. intros Hslash.
    destruct (permissive_authority penv now "/mainnet" "mainnet" req Hslash) as (rest & ->).
    reflexivity.
  - eexists. split; [reflexivity|]. intros Hslash.
    destruct (permissive_authority penv now "/testnet" "testnet" req Hslash) as (rest & ->).
    reflexivity.
Qed.

Lemma permissive_routes_always_forward_witness :
  exists call,
    snd (Permissive.mainnetHandler Sample.processEnv Sample.now Sample.upstream
           Cases.mainnetOrder) = [call]
    /\ (JS.startsWith (JS.replaceAnchored "/mainnet" "" (Http.originalUrl Cases.mainnetOrder))
                      "/" = true ->
        Url.authority (Http.url call) = Some "api.bybit.com").
Proof.
  apply (proj1 (permissive_routes_always_forward Sample.processEnv Sample.now
                  Sample.upstream Cases.mainnetOrder)).
Defined.

Lemma orNull_some (s : string) : s <> "" -> Permissive.orNull s = Some s.
Proof. intros H. apply truthy_true in H. unfold Permissive.orNull. rewrite H. reflexivity. Qed.

Lemma permissive_headers_signed penv now a key secret :
  Permissive.argApiKey a = Some key -> Permissive.argSecret a = Some secret ->
  key <> "" -> secret <> "" ->
  Http.optsHeaders (Permissive.outboundCall penv now a)
  = <["X-BAPI-RECV-WINDOW" := Permissive.RECV_WINDOW penv]>
    (<["X-BAPI-SIGN" :=
         Permissive.signBybit
           {| Unified.timestamp := JS.numberToString now; Unified.apiKey := key;
              Unified.secret := secret;
              Unified.recvWindow := Permissive.RECV_WINDOW penv;
              Unified.payload := Permissive.argPayload a |}]>
    (<["X-BAPI-TIMESTAMP" := JS.numberToString now]>
    (<["X-BAPI-API-KEY" := key]>
    (<["Content-Type" := "application/json"]> ∅)))).
Proof.
  intros Hk Hs Hkne Hsne. apply truthy_true in Hkne, Hsne.
  unfold Permissive.outboundCall. cbn [Http.optsHeaders].
  rewrite Hk, Hs, Hkne, Hsne. reflexivity.
Qed.

Lemma permissive_headers_unsigned penv now a :
  Permissive.argApiKey a = None \/ Permissive.argSecret a = None ->
  Http.optsHeaders (Permissive.outboundCall penv now a)
  = <["Content-Type" := "application/json"]> ∅.
Proof.
  intros H. unfold Permissive.outboundCall. cbn [Http.optsHeaders].
  destruct (Permissive.argApiKey a), (Permissive.argSecret a);
    destruct H; try discriminate; reflexivity.
Qed.

(** X13. On the mainnet route of the optional-credentials revision a call is
    signed exactly when both the mainnet key and the mainnet secret are set:
    then it carries the key, the time stamp, the receive window and a
    signature under that secret.  When either is unset or blank the call
    carries the content type and nothing else: a key without its secret is
    not sent. *)
Theorem permissive_signs_iff_both_keys penv now up req call :
  In call (snd (Permissive.mainnetHandler penv now up req)) ->
  (Permissive.MAIN_KEY penv <> "" -> Permissive.MAIN_SECRET penv <> "" ->
   Http.optsHeaders call !! "X-BAPI-API-KEY" = Some (Permissive.MAIN_KEY penv)
   /\ Http.optsHeaders call !! "X-BAPI-TIMESTAMP" = Some (JS.numberToString now)
   /\ Http.optsHeaders call !! "X-BAPI-RECV-WINDOW" = Some (Permissive.RECV_WINDOW penv)
   /\ exists payload,
        Http.optsHeaders call !! "X-BAPI-SIGN"
        = Some (Permissive.signBybit
                  {| Unified.timestamp := JS.numberToString now;
                     Unified.apiKey := Permissive.MAIN_KEY penv;
                     Unified.secret := Permissive.MAIN_SECRET penv;
                     Unified.recvWindow := Permissive.RECV_WINDOW penv;
                     Unified.payload := payload |}))
  /\ (Permissive.MAIN_KEY penv = "" \/ Permissive.MAIN_SECRET penv = "" ->
      Http.optsHeaders call = <["Content-Type" := "application/json"]> ∅
      /\ Http.optsHeaders call !! "X-BAPI-API-KEY" = None).
Proof.
  intros Hin. unfold Permissive.mainnetHandler in Hin.
  rewrite (permissive_calls _ _ _ _ _ _ _ Hin).
  destruct (permissive_forwardArgs_fields "/mainnet" (Permissive.credsFor penv "mainnet") req)
    as (Hk & Hs & _).
  assert (Hck : Permissive.credsApiKey (Permissive.credsFor penv "mainnet")
                = Permissive.orNull (Permissive.MAIN_KEY penv)) by reflexivity.
  assert (Hcs : Permissive.credsSecret (Permissive.credsFor penv "mainnet")
                = Permissive.orNull (Permissive.MAIN_SECRET penv)) by reflexivity.
  rewrite Hck in Hk. rewrite Hcs in Hs. split.
  - intros Hkne Hsne.
    rewrite (orNull_some _ Hkne) in Hk. rewrite (orNull_some _ Hsne) in Hs.
    rewrite (permissive_headers_signed penv now _ _ _ Hk Hs Hkne Hsne).
    split; [do 3 (rewrite lookup_insert_ne by discriminate); apply lookup_insert_eq|].
    split; [do 2 (rewrite lookup_insert_ne by discriminate); apply lookup_insert_eq|].
    split; [apply lookup_insert_eq|].
    eexists. rewrite lookup_insert_ne by discriminate. apply lookup_insert_eq.
  - intros Hmiss.
    assert (Hnone : Permissive.argApiKey
                      (Permissive.forwardArgs "/mainnet"
                         (Permissive.credsFor penv "mainnet") req) = None
                    \/ Permissive.argSecret
                         (Permissive.forwardArgs "/mainnet"
                            (Permissive.credsFor penv "mainnet") req) = None).
    { destruct Hmiss as [E | E]; [left; rewrite Hk, E | right; rewrite Hs, E];
        reflexivity. }
    rewrite (permissive_headers_unsigned penv now _ Hnone).
    split; [reflexivity|]. rewrite lookup_insert_ne by discriminate. apply lookup_empty.
Qed.

Lemma permissive_signs_iff_both_keys_witness :
  Http.optsHeaders
    (Permissive.outboundCall Cases.keyOnlyEnv Sample.now
       (Permissive.forwardArgs "/mainnet" (Permissive.credsFor Cases.keyOnlyEnv "mainnet")
          Cases.mainnetOrder))
  = <["Content-Type" := "application/json"]> ∅
  /\ Http.optsHeaders
       (Permissive.outboundCall Cases.keyOnlyEnv Sample.now
          (Permissive.forwardArgs "/mainnet" (Permissive.credsFor Cases.keyOnlyEnv "mainnet")
             Cases.mainnetOrder))
     !! "X-BAPI-API-KEY" = None.
Proof.
  apply (proj2 (permissive_signs_iff_both_keys Cases.keyOnlyEnv Sample.now Sample.upstream
                  Cases.mainnetOrder _ ltac:(vm_compute; left; reflexivity))).
  right. vm_compute. reflexivity.
Defined.

(** ** The required-credentials revision *)

Lemma strict_calls penv now up prefix env req call :
  In call (snd (Strict.routeHandler penv now up prefix env req)) ->
  exists creds,
    Strict.credsFor penv env = Http.Return creds
    /\ call = Strict.outboundCall penv now (Strict.forwardArgs prefix creds req).
Proof.
  unfold Strict.routeHandler, Strict.mustAuth.
  destruct (Strict.credsFor penv env) as [creds|e]; cbn [Http.lift Http.bind];
    [|intros []].
  unfold Strict.forwardToBybit, Http.fetch. cbn [Http.bind Http.ret].
  single_fetch up; exists creds; split; reflexivity.
Qed.

Lemma strict_forwardArgs_fields prefix creds req :
  Unified.argApiKey (Strict.forwardArgs prefix creds req) = Unified.credsApiKey creds
  /\ Unified.argSecret (Strict.forwardArgs prefix creds req) = Unified.credsSecret creds
  /\ exists rest,
       Unified.argUrl (Strict.forwardArgs prefix creds req) = Unified.baseUrl creds ++ rest.
Proof.
  unfold Strict.forwardArgs. cbv zeta.
  destruct (String.eqb _ "GET"); (split; [reflexivity|]); (split; [reflexivity|]);
    eexists; reflexivity.
Qed.

(** X14. In the required-credentials revision a route whose key or secret is
    unset or blank answers every request 500 with the message naming the
    missing keys and makes no outbound call: mainnet keys for the mainnet
    route, testnet keys for the testnet route. *)
Theorem strict_missing_keys_are_refused penv now up req :
  (Strict.MAIN_KEY penv = "" \/ Strict.MAIN_SECRET penv = "" ->
   Strict.mainnetHandler penv now up req
   = (Http.json 500 (Http.errorObject "Mainnet keys missing in env"), []))
  /\ (Strict.TESTNET_KEY penv = "" \/ Strict.TESTNET_SECRET penv = "" ->
      Strict.testnetHandler penv now up req
      = (Http.json 500 (Http.errorObject "Testnet keys missing in env"), [])).
Proof.
  split; intros Hmiss.
  - assert (Hc : Strict.credsFor penv "mainnet"
                 = Http.Throw (Http.newError "Mainnet keys missing in env")).
    { unfold Strict.credsFor. cbn [String.eqb Ascii.eqb Bool.eqb].
      destruct Hmiss as [-> | ->]; [reflexivity|].
      destruct (JS.truthy (Strict.MAIN_KEY penv)); reflexivity. }
    unfold Strict.mainnetHandler, Strict.routeHandler, Strict.mustAuth.
    rewrite Hc. reflexivity.
  - assert (Hc : Strict.credsFor penv "testnet"
                 = Http.Throw (Http.newError "Testnet keys missing in env")).
    { unfold Strict.credsFor. cbn [String.eqb Ascii.eqb Bool.eqb].
      destruct Hmiss as [-> | ->]; [reflexivity|].
      destruct (JS.truthy (Strict.TESTNET_KEY penv)); reflexivity. }
    unfold Strict.testnetHandler, Strict.routeHandler, Strict.mustAuth.
    rewrite Hc. reflexivity.
Qed.

Lemma strict_missing_keys_are_refused_witness :
  Strict.mainnetHandler Cases.keyOnlyEnv Sample.now Sample.upstream Cases.mainnetOrder
  = (Http.json 500 (Http.errorObject "Mainnet keys missing in env"), []).
Proof.
  apply (proj1 (strict_missing_keys_are_refused Cases.keyOnlyEnv Sample.now Sample.upstream
                  Cases.mainnetOrder)).
  right. vm_compute. reflexivity.
Defined.

Lemma strict_headers penv now a :
  Http.optsHeaders (Strict.outboundCall penv now a) !! "X-BAPI-API-KEY"
    = Some (Unified.argApiKey a)
  /\ Http.optsHeaders (Strict.outboundCall penv now a) !! "X-BAPI-SIGN"
     = Some (Strict.signBybit
               {| Unified.timestamp := JS.numberToString now;
                  Unified.apiKey := Unified.argApiKey a;
                  Unified.secret := Unified.argSecret a;
                  Unified.recvWindow := Strict.RECV_WINDOW penv;
                  Unified.payload := Unified.argPayload a |}).
Proof.
  unfold Strict.outboundCall. cbn [Http.optsHeaders]. split.
  - do 4 (rewrite lookup_insert_ne by discriminate). apply lookup_insert_eq.
  - do 2 (rewrite lookup_insert_ne by discriminate). apply lookup_insert_eq.
Qed.

Lemma strict_url prefix creds req :
  Unified.argUrl (Strict.forwardArgs prefix creds req)
  = Unified.baseUrl creds
    ++ JS.interpolate (JS.split "?" (JS.replaceAnchored prefix "" (Http.originalUrl req))
                         !! 0%nat)
    ++ (if JS.truthy (default "" (JS.split "?" (JS.replaceAnchored prefix ""
                                                  (Http.originalUrl req)) !! 1%nat))
        then "?" ++ default "" (JS.split "?" (JS.replaceAnchored prefix ""
                                                (Http.originalUrl req)) !! 1%nat)
        else "").
Proof.
  unfold Strict.forwardArgs. cbv zeta. destruct (String.eqb _ "GET"); reflexivity.
Qed.

Lemma strict_authority penv now prefix creds req :
  JS.startsWith (JS.replaceAnchored prefix "" (Http.originalUrl req)) "/" = true ->
  exists rest,
    Http.url (Strict.outboundCall penv now (Strict.forwardArgs prefix creds req))
    = Unified.baseUrl creds ++ String "/" rest.
Proof.
  intros Hslash.
  assert (Hurl : Http.url (Strict.outboundCall penv now (Strict.forwardArgs prefix creds req))
                 = Unified.argUrl (Strict.forwardArgs prefix creds req)) by reflexivity.
  rewrite Hurl, strict_url.
  destruct (built_url_after_base _
              (if JS.truthy (default "" (JS.split "?" (JS.replaceAnchored prefix ""
                                                         (Http.originalUrl req)) !! 1%nat))
               then "?" ++ default "" (JS.split "?" (JS.replaceAnchored prefix ""
                                                       (Http.originalUrl req)) !! 1%nat)
               else "") Hslash) as (rest & ->).
  exists rest. reflexivity.
Qed.

(** On these routes, which have no token gate, an absolute-form target
    takes the mainnet key to a URL whose authority is not the upstream's. *)
Lemma strict_absolute_form_target_changes_authority :
  map (fun call => (Url.authority (Http.url call),
                    Http.optsHeaders call !! "X-BAPI-API-KEY"))
      (snd (Strict.mainnetHandler Sample.processEnv Sample.now Sample.upstream
              Cases.absoluteFormMainnet))
  = [(Some "api.bybit.comhttp:", Some "K0")].
Proof. vm_compute. reflexivity. Qed.

(** X15. In the required-credentials revision every call is signed with the
    keys of its route: a call of the mainnet route carries the non-empty
    mainnet key and a signature under the mainnet secret, a call of the
    testnet route the testnet key and secret.  When the target, after removal
    of the route prefix, starts with a slash (every origin-form target the
    route matches), the authority of the URL is api.bybit.com on the mainnet
    route and api-demo.bybit.com on the testnet route. *)
Theorem strict_calls_use_route_keys penv now up req call :
  (In call (snd (Strict.mainnetHandler penv now up req)) ->
   (JS.startsWith (JS.replaceAnchored "/mainnet" "" (Http.originalUrl req)) "/" = true ->
    Url.authority (Http.url call) = Some "api.bybit.com")
   /\ Http.optsHeaders call !! "X-BAPI-API-KEY" = Some (Strict.MAIN_KEY penv)
   /\ Strict.MAIN_KEY penv <> "" /\ Strict.MAIN_SECRET penv <> ""
   /\ exists payload,
        Http.optsHeaders call !! "X-BAPI-SIGN"
        = Some (Strict.signBybit
                  {| Unified.timestamp := JS.numberToString now;
                     Unified.apiKey := Strict.MAIN_KEY penv;
                     Unified.secret := Strict.MAIN_SECRET penv;
                     Unified.recvWindow := Strict.RECV_WINDOW penv;
                     Unified.payload := payload |}))
  /\ (In call (snd (Strict.testnetHandler penv now up req)) ->
      (JS.startsWith (JS.replaceAnchored "/testnet" "" (Http.originalUrl req)) "/" = true ->
       Url.authority (Http.url call) = Some "api-demo.bybit.com")
      /\ Http.optsHeaders call !! "X-BAPI-API-KEY" = Some (Strict.TESTNET_KEY penv)
      /\ Strict.TESTNET_KEY penv <> "" /\ Strict.TESTNET_SECRET penv <> ""
      /\ exists payload,
           Http.optsHeaders call !! "X-BAPI-SIGN"
           = Some (Strict.signBybit
                     {| Unified.timestamp := JS.numberToString now;
                        Unified.apiKey := Strict.TESTNET_KEY penv;
                        Unified.secret := Strict.TESTNET_SECRET penv;
                        Unified.recvWindow := Strict.RECV_WINDOW penv;
                        Unified.payload := payload |})).
Proof.
  split; intros Hin.
  - destruct (strict_calls _ _ _ _ _ _ _ Hin) as (creds & Hc & ->).
    destruct (strict_forwardArgs_fields "/mainnet" creds req) as (Hk & Hs & _).
    pose proof (strict_authority penv now "/mainnet" creds req) as Hauth.
    destruct (strict_headers penv now (Strict.forwardArgs "/mainnet" creds req))
      as [Hkey Hsig].
    rewrite Hkey, Hsig, Hk, Hs.
    unfold Strict.credsFor in Hc. cbn [String.eqb Ascii.eqb Bool.eqb] in Hc.
    destruct (JS.truthy (Strict.MAIN_KEY penv)) eqn:Ek; [|discriminate].
    destruct (JS.truthy (Strict.MAIN_SECRET penv)) eqn:Es; [|discriminate].
    cbn in Hc. injection Hc as <-. apply truthy_true in Ek, Es.
    split.
    { intros Hslash. destruct (Hauth Hslash) as (rest & ->). reflexivity. }
    split; [reflexivity|].
    split; [exact Ek|]. split; [exact Es|]. eexists. reflexivity.
  - destruct (strict_calls _ _ _ _ _ _ _ Hin) as (creds & Hc & ->).
    destruct (strict_forwardArgs_fields "/testnet" creds req) as (Hk & Hs & _).
    pose proof (strict_authority penv now "/testnet" creds req) as Hauth.
    destruct (strict_headers penv now (Strict.forwardArgs "/testnet" creds req))
      as [Hkey Hsig].
    rewrite Hkey, Hsig, Hk, Hs.
    unfold Strict.credsFor in Hc. cbn [String.eqb Ascii.eqb Bool.eqb] in Hc.
    destruct (JS.truthy (Strict.TESTNET_KEY penv)) eqn:Ek; [|discriminate].
    destruct (JS.truthy (Strict.TESTNET_SECRET penv)) eqn:Es; [|discriminate].
    cbn in Hc. injection Hc as <-. apply truthy_true in Ek, Es.
    split.
    { intros Hslash. destruct (Hauth Hslash) as (rest & ->). reflexivity. }
    split; [reflexivity|].
    split; [exact Ek|]. split; [exact Es|]. eexists. reflexivity.
Qed.

Lemma strict_calls_use_route_keys_witness :
  (JS.startsWith (JS.replaceAnchored "/mainnet" "" (Http.originalUrl Cases.mainnetOrder)) "/"
   = true ->
   Url.authority
     (Http.url (Strict.outboundCall Sample.processEnv Sample.now
                  (Strict.forwardArgs "/mainnet" Sample.mainCreds Cases.mainnetOrder)))
   = Some "api.bybit.com")
  /\ Http.optsHeaders (Strict.outboundCall Sample.processEnv Sample.now
                         (Strict.forwardArgs "/mainnet" Sample.mainCreds Cases.mainnetOrder))
       !! "X-BAPI-API-KEY" = Some (Strict.MAIN_KEY Sample.processEnv)
  /\ Strict.MAIN_KEY Sample.processEnv <> "" /\ Strict.MAIN_SECRET Sample.processEnv <> ""
  /\ exists payload,
       Http.optsHeaders (Strict.outboundCall Sample.processEnv Sample.now
                           (Strict.forwardArgs "/mainnet" Sample.mainCreds
                              Cases.mainnetOrder))
         !! "X-BAPI-SIGN"
       = Some (Strict.signBybit
                 {| Unified.timestamp := JS.numberToString Sample.now;
                    Unified.apiKey := Strict.MAIN_KEY Sample.processEnv;
                    Unified.secret := Strict.MAIN_SECRET Sample.processEnv;
                    Unified.recvWindow := Strict.RECV_WINDOW Sample.processEnv;
                    Unified.payload := payload |}).
Proof.
  apply (proj1 (strict_calls_use_route_keys Sample.processEnv Sample.now Sample.upstream
                  Cases.mainnetOrder _)).
  vm_compute. left. reflexivity.
Defined.

(** ** The pass-through proxy *)

Lemma afterPrefix_own (p rest : string) : JS.afterPrefix p (p ++ rest) = Some rest.
Proof.
  induction p as [|a p IH]; [reflexivity|].
  rewrite append_cons. cbn [JS.afterPrefix]. rewrite Ascii.eqb_refl. exact IH.
Qed.

Lemma passthrough_trace up req baseUrl prefix :
  snd (Passthrough.proxyToBybit up req baseUrl prefix)
  = [Passthrough.outboundCall req baseUrl prefix].
Proof.
  unfold Passthrough.proxyToBybit, Http.fetch. cbn [Http.bind Http.ret].
  destruct (up _); reflexivity.
Qed.

(** X16. The pass-through proxy forwards every request with exactly one call.
    When the target starts with the route prefix, the URL is the base URL
    followed by the rest of the target, byte for byte (query string and any
    further question marks included); when it does not, nothing is removed
    and the whole target follows the base URL. *)
Theorem passthrough_url_keeps_target up req baseUrl prefix :
  exists call,
    snd (Passthrough.proxyToBybit up req baseUrl prefix) = [call]
    /\ (forall rest, Http.originalUrl req = "/" ++ prefix ++ rest ->
        Http.url call = baseUrl ++ rest)
    /\ (JS.startsWith (Http.originalUrl req) ("/" ++ prefix) = false ->
        Http.url call = baseUrl ++ Http.originalUrl req).
Proof.
  exists (Passthrough.outboundCall req baseUrl prefix).
  split; [apply passthrough_trace|].
  unfold Passthrough.outboundCall, JS.replaceAnchored, JS.startsWith. cbn [Http.url].
  split.
  - intros rest ->. change ("/" ++ prefix ++ rest) with (("/" ++ prefix) ++ rest).
    rewrite afterPrefix_own. reflexivity.
  - destruct (JS.afterPrefix ("/" ++ prefix) (Http.originalUrl req));
      [discriminate | reflexivity].
Qed.

(** *** The headers the pass-through proxy sends *)

Lemma copyHeader_eq req (m : gmap string string) (h : string) :
  Passthrough.copyHeader req m h
  = if JS.truthyOpt (Shape.inboundValue req h)
    then <[Shape.outboundName h := default "" (Shape.inboundValue req h)]> m
    else m.
Proof.
  unfold Passthrough.copyHeader, Shape.inboundValue, Shape.outboundName. cbv zeta.
  destruct (JS.orElse _ _) as [v|]; [|reflexivity].
  cbn [JS.truthyOpt default]. destruct (JS.truthy v); [|reflexivity]. cbn [negb].
  repeat (destruct (String.eqb h _); [reflexivity|]). reflexivity.
Qed.

Lemma fold_copy_other req (l : list string) (m : gmap string string) (k : string) :
  ~ In k (map Shape.outboundName l) ->
  fold_left (Passthrough.copyHeader req) l m !! k = m !! k.
Proof.
  revert m. induction l as [|h l IH]; intros m Hk; [reflexivity|].
  cbn [fold_left map In] in *. rewrite IH by tauto. rewrite copyHeader_eq.
  destruct (JS.truthyOpt _); [|reflexivity].
  apply lookup_insert_ne. intros E. apply Hk. left. exact E.
Qed.

Lemma fold_copy_in req (l : list string) (m : gmap string string) (h : string) :
  List.NoDup (map Shape.outboundName l) -> In h l ->
  fold_left (Passthrough.copyHeader req) l m !! Shape.outboundName h
  = if JS.truthyOpt (Shape.inboundValue req h) then Shape.inboundValue req h
    else m !! Shape.outboundName h.
Proof.
  revert m. induction l as [|x l IH]; intros m Hnd Hin; [destruct Hin|].
  cbn [fold_left map] in *. apply List.NoDup_cons_iff in Hnd as [Hx Hnd].
  destruct Hin as [-> | Hin].
  - rewrite (fold_copy_other req l _ _ Hx), copyHeader_eq.
    destruct (Shape.inboundValue req h) as [v|]; cbn [JS.truthyOpt default];
      [|reflexivity].
    destruct (JS.truthy v); [apply lookup_insert_eq | reflexivity].
  - rewrite (IH _ Hnd Hin). destruct (JS.truthyOpt (Shape.inboundValue req h));
      [reflexivity|].
    rewrite copyHeader_eq. destruct (JS.truthyOpt _); [|reflexivity].
    apply lookup_insert_ne. intros E. apply Hx. rewrite E. apply in_map. exact Hin.
Qed.

Lemma outboundNames_nodup :
  List.NoDup (map Shape.outboundName Passthrough.headersToCopy).
Proof.
  cbn. repeat (apply List.NoDup_cons; [cbn; intuition discriminate|]). apply List.NoDup_nil.
Qed.

Lemma copied_name_is_neither (h : string) :
  In h Passthrough.headersToCopy ->
  Shape.outboundName h <> "Content-Type" /\ Shape.outboundName h <> "User-Agent".
Proof.
  intros Hin. cbn in Hin.
  repeat (destruct Hin as [<- | Hin]; [split; discriminate|]). destruct Hin.
Qed.

(** X17. The pass-through proxy relays headers from a fixed list only.  The
    call never carries a header whose name is outside the eight copied names
    (the four Bybit ones in their upper-case spelling), Content-Type and
    User-Agent: cookies, authorization and forwarding headers of the client
    are dropped.  User-Agent is always the proxy's own. *)
Theorem passthrough_sends_listed_headers_only req baseUrl prefix (k : string) :
  ~ In k Shape.outboundNames ->
  Http.optsHeaders (Passthrough.outboundCall req baseUrl prefix) !! k = None
  /\ Http.optsHeaders (Passthrough.outboundCall req baseUrl prefix) !! "User-Agent"
     = Some Passthrough.userAgent.
Proof.
  intros Hk. unfold Passthrough.outboundCall. cbn [Http.optsHeaders].
  split; [|apply lookup_insert_eq].
  unfold Shape.outboundNames in Hk. rewrite in_app_iff in Hk.
  assert (Hua : "User-Agent" <> k) by (intros <-; apply Hk; right; cbn; tauto).
  assert (Hct : "Content-Type" <> k) by (intros <-; apply Hk; right; cbn; tauto).
  rewrite lookup_insert_ne by exact Hua.
  assert (Hfold : fold_left (Passthrough.copyHeader req) Passthrough.headersToCopy ∅ !! k
                  = None).
  { rewrite fold_copy_other by tauto. apply lookup_empty. }
  destruct (negb _ && negb _); [rewrite lookup_insert_ne by exact Hct|]; exact Hfold.
Qed.

Lemma passthrough_sends_listed_headers_only_witness :
  Http.optsHeaders (Passthrough.outboundCall Cases.presigned Passthrough.BYBIT_MAINNET
                      "mainnet") !! "cookie" = None
  /\ Http.optsHeaders (Passthrough.outboundCall Cases.presigned Passthrough.BYBIT_MAINNET
                         "mainnet") !! "User-Agent"
     = Some Passthrough.userAgent.
Proof.
  apply (passthrough_sends_listed_headers_only Cases.presigned Passthrough.BYBIT_MAINNET
           "mainnet" "cookie").
  cbn. intuition discriminate.
Defined.

(** X18. Every header of the copy list is relayed with its value unchanged,
    under its outbound name, when the request carries a non-empty value for
    it, and is absent from the call otherwise. *)
Theorem passthrough_relays_copied_headers req baseUrl prefix (h : string) :
  In h Passthrough.headersToCopy ->
  (forall v, Shape.inboundValue req h = Some v -> v <> "" ->
     Http.optsHeaders (Passthrough.outboundCall req baseUrl prefix) !! Shape.outboundName h
     = Some v)
  /\ (JS.truthyOpt (Shape.inboundValue req h) = false ->
      Http.optsHeaders (Passthrough.outboundCall req baseUrl prefix) !! Shape.outboundName h
      = None).
Proof.
  intros Hin. destruct (copied_name_is_neither h Hin) as [Hct Hua].
  assert (Hlook : Http.optsHeaders (Passthrough.outboundCall req baseUrl prefix)
                    !! Shape.outboundName h
                  = if JS.truthyOpt (Shape.inboundValue req h)
                    then Shape.inboundValue req h else None).
  { unfold Passthrough.outboundCall. cbn [Http.optsHeaders].
    rewrite lookup_insert_ne by congruence.
    assert (Hfold : fold_left (Passthrough.copyHeader req) Passthrough.headersToCopy ∅
                      !! Shape.outboundName h
                    = if JS.truthyOpt (Shape.inboundValue req h)
                      then Shape.inboundValue req h else None).
    { rewrite (fold_copy_in req _ ∅ h outboundNames_nodup Hin), lookup_empty.
      reflexivity. }
    destruct (negb _ && negb _); [rewrite lookup_insert_ne by congruence|]; exact Hfold. }
  rewrite Hlook. split.
  - intros v Hv Hne. rewrite Hv. cbn [JS.truthyOpt].
    apply truthy_true in Hne. rewrite Hne. reflexivity.
  - intros ->. reflexivity.
Qed.

Lemma passthrough_relays_copied_headers_witness :
  Http.optsHeaders (Passthrough.outboundCall Cases.presigned Passthrough.BYBIT_MAINNET
                      "mainnet") !! "X-BAPI-SIGN" = Some "abcd".
Proof.
  apply (proj1 (passthrough_relays_copied_headers Cases.presigned Passthrough.BYBIT_MAINNET
                  "mainnet" "x-bapi-sign" ltac:(cbn; tauto)) "abcd").
  - vm_compute. reflexivity.
  - discriminate.
Defined.

(** X19. A call with a method other than GET always has a content type: the
    client's own, relayed under the name content-type, when the request has
    one, and otherwise Content-Type: application/json, never both.  A GET
    gets no default content type. *)
Theorem passthrough_content_type req baseUrl prefix :
  (JS.toUpperCase (Http.method req) <> "GET" ->
   (forall v, Shape.inboundValue req "content-type" = Some v -> v <> "" ->
      Http.optsHeaders (Passthrough.outboundCall req baseUrl prefix) !! "content-type"
        = Some v
      /\ Http.optsHeaders (Passthrough.outboundCall req baseUrl prefix) !! "Content-Type"
         = None)
   /\ (JS.truthyOpt (Shape.inboundValue req "content-type") = false ->
       Http.optsHeaders (Passthrough.outboundCall req baseUrl prefix) !! "content-type"
         = None
       /\ Http.optsHeaders (Passthrough.outboundCall req baseUrl prefix) !! "Content-Type"
          = Some "application/json"))
  /\ (JS.toUpperCase (Http.method req) = "GET" ->
      Http.optsHeaders (Passthrough.outboundCall req baseUrl prefix) !! "Content-Type"
      = None).
Proof.
  assert (Hin : In "content-type" Passthrough.headersToCopy) by (cbn; tauto).
  assert (Hlow : fold_left (Passthrough.copyHeader req) Passthrough.headersToCopy ∅
                   !! "content-type"
                 = if JS.truthyOpt (Shape.inboundValue req "content-type")
                   then Shape.inboundValue req "content-type" else None).
  { change "content-type" with (Shape.outboundName "content-type") at 1.
    rewrite (fold_copy_in req _ ∅ "content-type" outboundNames_nodup Hin), lookup_empty.
    reflexivity. }
  assert (Hup : fold_left (Passthrough.copyHeader req) Passthrough.headersToCopy ∅
                  !! "Content-Type" = None).
  { rewrite fold_copy_other; [apply lookup_empty|]. cbn. intuition discriminate. }
  unfold Passthrough.outboundCall. cbn [Http.optsHeaders].
  rewrite !(lookup_insert_ne _ "User-Agent") by discriminate. rewrite Hlow.
  split.
  - intros Hm.
    destruct (String.eqb_spec (JS.toUpperCase (Http.method req)) "GET"); [contradiction|].
    cbn [negb]. rewrite andb_true_r. split.
    + intros v Hv Hne. apply truthy_true in Hne.
      assert (Ht : JS.truthyOpt (Shape.inboundValue req "content-type") = true)
        by (rewrite Hv; exact Hne).
      rewrite Ht in *. rewrite Hv. unfold JS.truthyOpt. rewrite Hne. cbn [negb].
      rewrite Hlow, Hup, Hv. split; reflexivity.
    + intros Hf. rewrite Hf in *. cbn [JS.truthyOpt negb].
      rewrite lookup_insert_ne by discriminate. rewrite Hlow, lookup_insert_eq.
      split; reflexivity.
  - intros ->. cbn [String.eqb Ascii.eqb Bool.eqb negb]. rewrite andb_false_r. exact Hup.
Qed.

Lemma passthrough_content_type_witness :
  Http.optsHeaders (Passthrough.outboundCall Cases.presigned Passthrough.BYBIT_MAINNET
                      "mainnet") !! "content-type" = Some "text/plain"
  /\ Http.optsHeaders (Passthrough.outboundCall Cases.presigned Passthrough.BYBIT_MAINNET
                         "mainnet") !! "Content-Type" = None.
Proof.
  apply (proj1 (proj1 (passthrough_content_type Cases.presigned Passthrough.BYBIT_MAINNET
                         "mainnet")
                      ltac:(vm_compute; discriminate)) "text/plain").
  - vm_compute. reflexivity.
  - discriminate.
Defined.

(** ** The headers of the unified handler *)

(** X20. The unified handler sends headers of its own only.  Every call
    carries exactly the five headers X-BAPI-API-KEY, X-BAPI-TIMESTAMP,
    X-BAPI-SIGN, X-BAPI-RECV-WINDOW and Content-Type: application/json;
    no header of the client, the proxy token included, reaches the
    upstream. *)
Theorem unified_sends_own_headers_only penv now up req call (k : string) :
  In call (snd (Unified.handler penv now up req)) ->
  (is_Some (Http.optsHeaders call !! k)
   <-> In k ["X-BAPI-API-KEY"; "X-BAPI-TIMESTAMP"; "X-BAPI-SIGN"; "X-BAPI-RECV-WINDOW";
             "Content-Type"])
  /\ Http.optsHeaders call !! "Content-Type" = Some "application/json"
  /\ Http.optsHeaders call !! "X-PROXY-TOKEN" = None
  /\ Http.optsHeaders call !! "x-proxy-token" = None.
Proof.
  intros Hin.
  destruct (handler_calls _ _ _ _ _ Hin) as (_ & env & creds & _ & _ & ->).
  unfold Unified.outboundCall. cbn [Http.optsHeaders].
  split; [|split; [apply lookup_insert_eq|
           split; (do 5 (rewrite lookup_insert_ne by discriminate)); apply lookup_empty]].
  split.
  - intros Hsome. cbn [In].
    destruct (String.eqb_spec "Content-Type" k); [tauto|].
    rewrite lookup_insert_ne in Hsome by assumption.
    destruct (String.eqb_spec "X-BAPI-RECV-WINDOW" k); [tauto|].
    rewrite lookup_insert_ne in Hsome by assumption.
    destruct (String.eqb_spec "X-BAPI-SIGN" k); [tauto|].
    rewrite lookup_insert_ne in Hsome by assumption.
    destruct (String.eqb_spec "X-BAPI-TIMESTAMP" k); [tauto|].
    rewrite lookup_insert_ne in Hsome by assumption.
    destruct (String.eqb_spec "X-BAPI-API-KEY" k); [tauto|].
    rewrite lookup_insert_ne in Hsome by assumption.
    rewrite lookup_empty in Hsome. destruct Hsome as [x Hx]. discriminate.
  - cbn [In]. intros [<- | [<- | [<- | [<- | [<- | []]]]]];
      repeat (rewrite lookup_insert_ne by discriminate);
      rewrite lookup_insert_eq; eexists; reflexivity.
Qed.

Lemma unified_sends_own_headers_only_witness :
  (is_Some (Http.optsHeaders Sample.postOrderCall !! "x-bybit-env")
   <-> In "x-bybit-env" ["X-BAPI-API-KEY"; "X-BAPI-TIMESTAMP"; "X-BAPI-SIGN";
                         "X-BAPI-RECV-WINDOW"; "Content-Type"])
  /\ Http.optsHeaders Sample.postOrderCall !! "Content-Type" = Some "application/json"
  /\ Http.optsHeaders Sample.postOrderCall !! "X-PROXY-TOKEN" = None
  /\ Http.optsHeaders Sample.postOrderCall !! "x-proxy-token" = None.
Proof.
  apply (unified_sends_own_headers_only Sample.processEnv Sample.now Sample.upstream
           Sample.postOrder Sample.postOrderCall "x-bybit-env").
  vm_compute. left. reflexivity.
Defined.
